(** * Domain registry and verification engine of the Zulip desktop client

    A shallow embedding of [DomainUtil] (the class that follows [SystemUtil]
    in [app/renderer/js/utils/system-util.ts]): URL normalisation, the icon
    file-name hash, the server verifier with its certificate escalation, the
    icon fetcher and the index-addressed store of domain records.

    JavaScript strings are modelled by [string]; the hash itself is stated
    over arbitrary lists of UTF-16 code units.  JavaScript numbers that the
    code uses as 32-bit integers are modelled by [Z] with the wrap-around of
    [ToInt32] and [>>> 0] written out.

    The methods of the class run in a state monad over the store file, the
    icon directory and a trace of observable effects.  A call returns a
    value, throws, or (for a promise) never settles.  The network and the
    user are an oracle, [World]; every statement below holds for every
    oracle.  The file system is part of the picture as far as the icon URL
    decides it: a file name with a NUL byte is refused by
    [fs.createWriteStream], and the operating system may fail to open the
    file.  What the model leaves out: a [server-icons] directory that cannot
    be made, a settings request that is never answered, and a store whose
    array has holes (which only an update further than one past the end
    would make). *)

From Stdlib Require Import ZArith String Ascii List Bool Lia DecimalString.
From stdpp Require Import base list strings gmap.

Open Scope string_scope.
Open Scope Z_scope.

(** ** JavaScript string primitives used by the source *)

Module JsString.

(** [s.charCodeAt(i)] for an index inside the string. *)
Definition charCodeAt (s : string) (i : nat) : Z :=
  match String.get i s with
  | Some a => Z.of_N (N_of_ascii a)
  | None => 0
  end.

Definition charCodes (s : string) : list Z :=
  map (fun a => Z.of_N (N_of_ascii a)) (list_ascii_of_string s).

(** [s.startsWith(p)]; also [s.indexOf(p) === 0]. *)
Definition startsWith (s p : string) : bool := String.prefix p s.

(** [s.includes(p)]; also [s.indexOf(p) >= 0]. *)
Fixpoint includes (s p : string) : bool :=
  match s with
  | EmptyString => String.prefix p EmptyString
  | String _ s' => String.prefix p s || includes s' p
  end.

(** [s.slice(a, b)] for [0 <= a <= b <= s.length]. *)
Definition slice (s : string) (a b : Z) : string :=
  String.substring (Z.to_nat a) (Z.to_nat (b - a)) s.

(** [s.split(sep)[0]]: the part of [s] before the first [sep], all of [s]
    when [sep] does not occur. *)
Fixpoint split_head (sep : ascii) (s : string) : string :=
  match s with
  | EmptyString => EmptyString
  | String c s' => if Ascii.eqb c sep then EmptyString else String c (split_head sep s')
  end.

(** Whether the character [c] occurs in [s]. *)
Fixpoint has_char (c : ascii) (s : string) : bool :=
  match s with
  | EmptyString => false
  | String c' s' => Ascii.eqb c' c || has_char c s'
  end.

(** The NUL character, which no path given to [fs] may hold. *)
Definition NUL : ascii := ascii_of_nat 0.

(** A template literal [`${n}`] for a non-negative integer [n]. *)
Definition of_uint (n : Z) : string := NilZero.string_of_uint (N.to_uint (Z.to_N n)).

End JsString.

Import JsString.

(** ** 32-bit integer conversions *)

Definition two32 : Z := 2 ^ 32.

(** [ToInt32]: the operands of [^] are reduced modulo 2^32 into the signed
    range. *)
Definition toInt32 (z : Z) : Z :=
  let m := z mod two32 in if m <? 2 ^ 31 then m else m - two32.

(** [z >>> 0]. *)
Definition toUint32 (z : Z) : Z := z mod two32.

(** [a ^ b] on JavaScript numbers. *)
Definition js_xor (a b : Z) : Z := Z.lxor (toInt32 a) (toInt32 b).

(** ** [formatUrl] *)

Definition formatUrl (domain : string) : string :=
  let hasPrefix := startsWith domain "http" in
  if hasPrefix then domain
  else if includes domain "localhost:" then "http://" +:+ domain
       else "https://" +:+ domain.

(** ** [generateFilePath]: the hash loop *)

(** [while (len) { hash = (hash * 33) ^ url.charCodeAt(--len); }] over the
    code units [codes] of the URL. *)
Fixpoint hash_while (codes : list Z) (len : nat) (hash : Z) : Z :=
  match len with
  | O => hash
  | S len' => hash_while codes len' (js_xor (hash * 33) (nth len' codes 0))
  end.

Definition url_hash_codes (codes : list Z) : Z :=
  toUint32 (hash_while codes (length codes) 5381).

Definition url_hash (url : string) : Z := url_hash_codes (charCodes url).

(** The hash as the specification words it: an unsigned 32-bit accumulator
    seeded with 5381, each step multiplying by 33 and XOR-ing the next
    character, the characters taken from the last one to the first. *)
Definition spec_hash_step (c h : Z) : Z := Z.lxor ((h * 33) mod two32) c.

Definition spec_hash (codes : list Z) : Z := fold_right spec_hash_step 5381 codes.

(** ** [path.extname] (Node, POSIX flavour)

    The scan runs from the last character to the first and keeps the five
    variables of Node's implementation. *)

Record ExtScan := mkExtScan {
  startDot : Z; startPart : Z; endIdx : Z; matchedSlash : bool; preDotState : Z
}.

Definition CHAR_FORWARD_SLASH : Z := 47.
Definition CHAR_DOT : Z := 46.

Definition ext_init : ExtScan := mkExtScan (-1) 0 (-1) true 0.

Definition ext_see_char (i : Z) (code : Z) (s : ExtScan) : ExtScan :=
  let s1 :=
    if endIdx s =? -1
    then mkExtScan (startDot s) (startPart s) (i + 1) false (preDotState s)
    else s in
  if code =? CHAR_DOT then
    if startDot s1 =? -1
    then mkExtScan i (startPart s1) (endIdx s1) (matchedSlash s1) (preDotState s1)
    else if negb (preDotState s1 =? 1)
         then mkExtScan (startDot s1) (startPart s1) (endIdx s1) (matchedSlash s1) 1
         else s1
  else if negb (startDot s1 =? -1)
       then mkExtScan (startDot s1) (startPart s1) (endIdx s1) (matchedSlash s1) (-1)
       else s1.

(** [for (let i = path.length - 1; i >= 0; --i) ...]; [n] is [i + 1]. *)
Fixpoint ext_scan (path : string) (n : nat) (s : ExtScan) : ExtScan :=
  match n with
  | O => s
  | S i =>
      let code := charCodeAt path i in
      if code =? CHAR_FORWARD_SLASH then
        if negb (matchedSlash s)
        then mkExtScan (startDot s) (Z.of_nat i + 1) (endIdx s) (matchedSlash s) (preDotState s)
        else ext_scan path i s
      else ext_scan path i (ext_see_char (Z.of_nat i) code s)
  end.

Definition extname (path : string) : string :=
  let s := ext_scan path (String.length path) ext_init in
  if (startDot s =? -1) || (endIdx s =? -1) || (preDotState s =? 0)
     || ((preDotState s =? 1) && (startDot s =? endIdx s - 1)
         && (startDot s =? startPart s + 1))
  then EmptyString
  else slice path (startDot s) (endIdx s).

(** [path.extname(url).split('?')[0]] *)
Definition icon_extension (url : string) : string :=
  split_head "?"%char (extname url).

(** The file name that [generateFilePath] appends to the directory:
    [`${hash >>> 0}${extension}`]. *)
Definition icon_file_name (url : string) : string :=
  of_uint (url_hash url) +:+ icon_extension url.

(** The extension as the specification words it: the query string is cut
    off first, the extension is taken from what is left. *)
Definition spec_extension (url : string) : string :=
  extname (split_head "?"%char url).

Definition spec_file_name (url : string) : string :=
  of_uint (spec_hash (charCodes url)) +:+ spec_extension url.

(** ** Data model *)

(** A domain record, with the four fields [checkDomain] and
    [getServerSettings] build. *)
Record ServerConf := mkServerConf {
  icon : string;
  url : string;
  alias : string;
  ignoreCerts : bool
}.

Definition set_icon (server : ServerConf) (i : string) : ServerConf :=
  mkServerConf i (url server) (alias server) (ignoreCerts server).

Definition set_ignoreCerts (server : ServerConf) (b : bool) : ServerConf :=
  mkServerConf (icon server) (url server) (alias server) b.

Definition defaultIconUrl : string := "../renderer/img/icon.png".

(** The parsed body of the settings endpoint.  The model covers bodies that
    are JSON objects in which [realm_icon], when present, is a string, and
    [realm_uri] and [realm_name] are strings; the two last fields are read
    only when [realm_icon] is a non-empty string. *)
Record Settings := mkSettings {
  realm_icon : option string;
  realm_uri : string;
  realm_name : string
}.

(** [response.body]: text on which [JSON.parse] throws, or a JSON object. *)
Inductive Body := BodyMalformed | BodyJson (data : Settings).

Record Response := mkResponse { statusCode : Z; body : Body }.

(** The JavaScript values that are thrown, rejected or inspected as
    errors. *)
Inductive JsValue :=
| VUndefined
| VString (s : string)
| VError (message : string)
| VResponse (response : Response).

(** [String(v)], which is also [v.toString()] for every value but
    [undefined]. *)
Definition toString (v : JsValue) : string :=
  match v with
  | VUndefined => "undefined"
  | VString s => s
  | VError m => if String.eqb m EmptyString then "Error" else "Error: " +:+ m
  | VResponse _ => "[object Object]"
  end.

(** [err || ''] *)
Definition or_empty (err : JsValue) : JsValue :=
  match err with
  | VUndefined => VString EmptyString
  | VString s => if String.eqb s EmptyString then VString EmptyString else err
  | _ => err
  end.

(** [a === b] where [b] is a string. *)
Definition strict_eq_string (a : JsValue) (b : string) : bool :=
  match a with
  | VString s => String.eqb s b
  | _ => false
  end.

(** The options object handed to [request]: the URL and what
    [RequestUtil.requestOptions(domain, ignoreCerts)] is computed from. *)
Record Request := mkRequest {
  req_url : string;
  req_domain : string;
  req_ignoreCerts : bool
}.

(** What the callback of [request(options, callback)] receives: an error
    (and no response), or a response. *)
Inductive SettingsReply :=
| ReplyError (error : JsValue)
| ReplyResponse (response : Response).

(** What happens to the streaming [request(options)] of the icon: the call
    throws; the request emits ['error']; the response arrives and emits
    ['error']; the response is piped to its end (so that a stream that was
    opened emits ['finish']); or none of the events the code listens for
    ever comes.  The strings are the bytes that were piped. *)
Inductive IconReply :=
| IconThrows (err : JsValue)
| IconRequestError (err : JsValue) (written : string)
| IconResponseError (err : JsValue) (written : string)
| IconFinish (content : string)
| IconUnanswered.

(** [config/domain.json]: absent, not parseable, or a document whose
    [domains] key is absent or holds the ordered collection. *)
Inductive DomainFile :=
| FileMissing
| FileCorrupt
| FileDoc (domains : option (list ServerConf)).

(** The collection a parseable document holds ([getDomains] on it). *)
Definition domains_of (f : DomainFile) : list ServerConf :=
  match f with
  | FileDoc (Some l) => l
  | _ => []
  end.

(** Observable effects, in the order they happen. *)
Inductive Event :=
| EvSettingsRequest (r : Request)
| EvIconRequest (r : Request)
| EvPrompt (message detail : string)
| EvErrorBox
| EvLog (line : string)
| EvLogError
| EvSentry (err : JsValue)
| EvMkdir (dir : string)
| EvOpenWrite (path : string).

Record State := mkState {
  store : DomainFile;
  dirs : gset string;
  files : gmap string string;
  trace : list Event
}.

(** [resources/messages.js] is not among the sources; its functions are
    parameters of the model. *)
Record Messages := mkMessages {
  noOrgsError : string -> string;
  invalidZulipServerError : string -> string;
  certErrorMessage : string -> JsValue -> string;
  certErrorDetail : string
}.

(** The surroundings of the registry.  The replies of the network and of the
    user may depend on the moment they are asked, which is the number of
    effects observed so far.  [userData] is [app.getPath('userData')], a
    directory of the operating system, hence without NUL byte.
    [file_opens path] tells whether the operating system opens [path] for
    writing (it does not when the name is too long, the disk is full or
    permission is missing). *)
Record World := mkWorld {
  userData : string;
  userData_path : has_char NUL userData = false;
  messages : Messages;
  settings_reply : nat -> Request -> SettingsReply;
  icon_reply : nat -> Request -> IconReply;
  dialog_reply : nat -> Z;
  file_opens : string -> bool
}.

(** The result of a call or of a promise: a value (returned, resolved), an
    exception (thrown, rejected), or a promise that never settles. *)
Inductive Outcome (A : Type) :=
| Resolved (a : A)
| Rejected (e : JsValue)
| Pending.

Arguments Resolved {A} a.
Arguments Rejected {A} e.
Arguments Pending {A}.

Definition M (A : Type) : Type := State -> Outcome A * State.

Definition ret {A} (a : A) : M A := fun st => (Resolved a, st).
Definition throw {A} (e : JsValue) : M A := fun st => (Rejected e, st).
Definition never {A} : M A := fun st => (Pending, st).

Definition bind {A B} (m : M A) (k : A -> M B) : M B :=
  fun st =>
    match m st with
    | (Resolved a, st') => k a st'
    | (Rejected e, st') => (Rejected e, st')
    | (Pending, st') => (Pending, st')
    end.

(** [try { m } catch (err) { h err }] *)
Definition try_catch {A} (m : M A) (h : JsValue -> M A) : M A :=
  fun st =>
    match m st with
    | (Rejected e, st') => h e st'
    | r => r
    end.

#[global] Instance M_bind : MBind M := fun A B k m => bind m k.
#[global] Instance M_ret : MRet M := fun A a => ret a.

Definition emit (e : Event) : M unit :=
  fun st => (Resolved tt, mkState (store st) (dirs st) (files st) (trace st ++ [e])%list).

Definition get_store : M DomainFile := fun st => (Resolved (store st), st).

Definition put_store (f : DomainFile) : M unit :=
  fun st => (Resolved tt, mkState f (dirs st) (files st) (trace st)).

Definition now : M nat := fun st => (Resolved (length (trace st)), st).

(** [fs.existsSync(dir)] *)
Definition existsSync (dir : string) : M bool :=
  fun st => (Resolved (bool_decide (dir ∈ dirs st)), st).

(** [fs.mkdirSync(dir)] *)
Definition mkdirSync (dir : string) : M unit :=
  fun st => (Resolved tt, mkState (store st) ({[dir]} ∪ dirs st) (files st) (trace st ++ [EvMkdir dir])%list).

(** The file behind a write stream is created, or truncated, when the
    operating system opens it. *)
Definition open_file (path : string) : M unit :=
  fun st => (Resolved tt, mkState (store st) (dirs st) (<[path := EmptyString]> (files st)) (trace st ++ [EvOpenWrite path])%list).

(** Bytes piped into a stream on [path]; they reach the file when the
    stream is [live], that is when its file was opened. *)
Definition pipe_to (live : bool) (path content : string) : M unit :=
  fun st =>
    (Resolved tt,
     if live
     then mkState (store st) (dirs st) (<[path := content]> (files st)) (trace st)
     else st).

(** ** [escape-html]

    The five characters the package replaces: the double quote (34), [&],
    the single quote (39), [<] and [>]. *)
Definition escape_char (c : ascii) : string :=
  if Ascii.eqb c (ascii_of_nat 34) then "&quot;"
  else if Ascii.eqb c "&"%char then "&amp;"
  else if Ascii.eqb c (ascii_of_nat 39) then "&#39;"
  else if Ascii.eqb c "<"%char then "&lt;"
  else if Ascii.eqb c ">"%char then "&gt;"
  else String c EmptyString.

Fixpoint escape (s : string) : string :=
  match s with
  | EmptyString => EmptyString
  | String c s' => escape_char c +:+ escape s'
  end.

(** What [fs.createWriteStream] throws for a path with a NUL byte. *)
Definition nul_path_error : JsValue :=
  VError "The argument 'path' must be a string without null bytes".

(** A callback whose exception nobody catches: the promise that waits for
    it is never settled. *)
Definition lost_on_throw {A} (m : M A) : M A :=
  fun st =>
    match m st with
    | (Rejected _, st') => (Pending, st')
    | r => r
    end.

(** ** The registry *)

(** [{url: domain + '/api/v1/server_settings',
      ...RequestUtil.requestOptions(domain, ignoreCerts)}] *)
Definition serverSettingsOptions (domain : string) (ignoreCerts : bool) : Request :=
  mkRequest (domain +:+ "/api/v1/server_settings") domain ignoreCerts.

Section Registry.

Variable W : World.

(** [dialog.showMessageBox({type: 'warning', buttons: ['Yes', 'No'], ...})]:
    the index of the button the user chose. *)
Definition showMessageBox (message detail : string) : M Z :=
  t ← now;
  emit (EvPrompt message detail);;
  ret (dialog_reply W t).

(** [request(options, callback)] for the settings endpoint. *)
Definition request_settings (options : Request) : M SettingsReply :=
  t ← now;
  emit (EvSettingsRequest options);;
  ret (settings_reply W t options).

(** [request(options)] for the icon. *)
Definition request_icon (options : Request) : M IconReply :=
  t ← now;
  emit (EvIconRequest options);;
  ret (icon_reply W t options).

(** [fs.createWriteStream(path)].  A path with a NUL byte is refused with
    an exception (a [TypeError], of which only the throw matters here).
    Otherwise the stream is returned at once and the file is opened behind
    it: when the operating system opens it, the file is created or
    truncated; when it does not, the stream reports ['error'] to nobody and
    will never emit ['finish'].  The result tells whether the stream is
    live. *)
Definition createWriteStream (path : string) : M bool :=
  if has_char NUL path
  then throw nul_path_error
  else if file_opens W path
       then (open_file path;; ret true)
       else (emit (EvOpenWrite path);; ret false).

(** [reloadDB]: a file that does not parse is deleted and reported; then
    [new JsonDB(path, true, true)] creates a missing file as the empty
    document. *)
Definition reloadDB : M unit :=
  f ← get_store;
  match f with
  | FileDoc _ => ret tt
  | FileMissing => put_store (FileDoc None)
  | FileCorrupt =>
      emit EvErrorBox;;
      emit EvLogError;;
      emit EvLogError;;
      emit (EvSentry (VError "SyntaxError"));;
      put_store (FileDoc None)
  end.

(** The data [this.db] reads when it is first used after [reloadDB]; a file
    that went missing or bad in between makes the load throw. *)
Definition db_data : M (option (list ServerConf)) :=
  f ← get_store;
  match f with
  | FileDoc d => ret d
  | _ => throw (VError "Can't Load Database")
  end.

Definition getDomains : M (list ServerConf) :=
  reloadDB;;
  d ← db_data;
  match d with
  | None => ret []
  | Some l => ret l
  end.

(** [this.db.getData(`/domains[${index}]`)] throws a [DataError] when the
    key or the index is not there. *)
Definition getDomain (index : nat) : M ServerConf :=
  reloadDB;;
  d ← db_data;
  match d with
  | None => throw (VError "DataError")
  | Some l =>
      match l !! index with
      | Some server => ret server
      | None => throw (VError "DataError")
      end
  end.

(** [this.db.push(`/domains[${index}]`, server, true)]: the record at
    [index] is replaced; at the index just past the end the record is
    appended, and a document without [domains] gets the array.  An index
    further out makes the store pad the array with [null]s; the collections
    of the model cannot hold these, and the model stops there with a
    [DataError], which is not what the store does. *)
Definition updateDomain (index : nat) (server : ServerConf) : M unit :=
  reloadDB;;
  d ← db_data;
  let l := match d with Some l => l | None => [] end in
  if bool_decide (index < length l)%nat
  then put_store (FileDoc (Some (<[index := server]> l)))
  else if bool_decide (index = length l)
       then put_store (FileDoc (Some (l ++ [server])%list))
       else throw (VError "DataError").

(** [this.db.push('/domains[]', server, true)] *)
Definition db_append (server : ServerConf) : M unit :=
  d ← db_data;
  match d with
  | Some l => put_store (FileDoc (Some (l ++ [server])%list))
  | None => put_store (FileDoc (Some [server]))
  end.

Definition removeDomains : M unit :=
  db_data;;
  put_store (FileDoc None);;
  reloadDB.

(** [this.db.delete(`/domains[${index}]`)] splices the record out of the
    array. *)
Definition removeDomain (index : nat) : M unit :=
  d ← db_data;
  match d with
  | Some l =>
      (if bool_decide (index < length l)%nat
       then put_store (FileDoc (Some (delete index l)))
       else throw (VError "DataError"));;
      reloadDB
  | None => throw (VError "DataError")
  end.

(** [for (const i in servers) if (servers[i].url === domain) return true] *)
Definition duplicateDomain (domain : string) : M bool :=
  let domain := formatUrl domain in
  servers ← getDomains;
  ret (existsb (fun server => String.eqb (url server) domain) servers).

Definition getServerSettings (domain : string) (ignoreCerts : bool) : M ServerConf :=
  reply ← request_settings (serverSettingsOptions domain ignoreCerts);
  match reply with
  | ReplyResponse response =>
      if statusCode response =? 200 then
        match body response with
        | BodyMalformed => never
        | BodyJson data =>
            match realm_icon data with
            | Some realm_icon =>
                if negb (String.eqb realm_icon EmptyString) then
                  ret (mkServerConf
                         (if startsWith realm_icon "/"
                          then realm_uri data +:+ realm_icon
                          else realm_icon)
                         (realm_uri data)
                         (escape (realm_name data))
                         ignoreCerts)
                else throw (VString (noOrgsError (messages W) domain))
            | None => throw (VString (noOrgsError (messages W) domain))
            end
        end
      else throw (VResponse response)
  | ReplyError _ => throw VUndefined
  end.

Definition checkCertError (domain : string) (serverConf : ServerConf)
    (error : JsValue) (silent : bool) : M ServerConf :=
  if silent then ret serverConf
  else
    emit (EvSentry (VError (toString error)));;
    let certErrorMessage := certErrorMessage (messages W) domain error in
    let certErrorDetail := certErrorDetail (messages W) in
    response ← showMessageBox certErrorMessage certErrorDetail;
    if response =? 0 then
      let serverConf := set_ignoreCerts serverConf true in
      try_catch (getServerSettings domain (ignoreCerts serverConf))
        (fun err =>
           if strict_eq_string error (noOrgsError (messages W) domain)
           then throw (VError (toString error))
           else ret serverConf)
    else throw (VError "Untrusted certificate.").

Definition whitelistDomains : string := "zulipdev.org".

Definition checkDomain (domain : string) (ignoreCerts silent : bool) : M ServerConf :=
  duplicate ← (if negb silent then duplicateDomain domain else ret false);
  if (duplicate : bool) then throw (VError "This server has been added.")
  else
    let domain := formatUrl domain in
    let serverConf := mkServerConf defaultIconUrl domain domain ignoreCerts in
    try_catch (getServerSettings domain ignoreCerts)
      (fun err =>
         let error := or_empty err in
         let certsError := includes (toString error) "certificate" in
         if includes domain whitelistDomains || certsError
         then checkCertError domain serverConf error silent
         else throw (VString (invalidZulipServerError (messages W) domain))).

Definition server_icons_dir : string := userData W +:+ "/server-icons".

Definition generateFilePath (url : string) : M string :=
  let dir := server_icons_dir in
  let extension := icon_extension url in
  let hash := hash_while (charCodes url) (length (charCodes url)) 5381 in
  present ← existsSync dir;
  (if negb (present : bool) then mkdirSync dir else ret tt);;
  ret (dir +:+ "/" +:+ of_uint (toUint32 hash) +:+ extension).

Definition icon_failed (err : JsValue) : M string :=
  emit (EvLog "Could not get server icon.");;
  emit (EvLog (toString err));;
  emit (EvSentry err);;
  ret defaultIconUrl.

(** The promise executor runs [generateFilePath] and [createWriteStream]
    before the [try]: an exception of either rejects the promise. *)
Definition saveServerIcon (server : ServerConf) (ignoreCerts : bool) : M string :=
  let domain := url server in
  let url := icon server in
  let serverIconOptions := mkRequest url domain ignoreCerts in
  filePath ← generateFilePath url;
  file ← createWriteStream filePath;
  if String.eqb (req_url serverIconOptions) defaultIconUrl then
    emit (EvLog "Could not get server icon.");;
    ret defaultIconUrl
  else
    reply ← request_icon serverIconOptions;
    match reply with
    | IconThrows err => icon_failed err
    | IconRequestError err written => pipe_to file filePath written;; icon_failed err
    | IconResponseError err written => pipe_to file filePath written;; icon_failed err
    | IconFinish content =>
        pipe_to file filePath content;;
        if (file : bool) then ret filePath else never
    | IconUnanswered => never
    end.

(** [addDomain] wraps its work in [new Promise(resolve => ...)].  With an
    icon, the store is written inside the [then] of [saveServerIcon]: when
    [saveServerIcon] is rejected, or the callback throws, the rejection is
    lost and [resolve] is never called.  Without an icon the store is written
    inside the executor, where an exception rejects the promise. *)
Definition addDomain (server : ServerConf) : M unit :=
  let ignoreCerts := ignoreCerts server in
  if negb (String.eqb (icon server) EmptyString) then
    lost_on_throw (
      localIconUrl ← saveServerIcon server ignoreCerts;
      db_append (set_icon server localIconUrl);;
      reloadDB)
  else
    db_append (set_icon server defaultIconUrl);;
    reloadDB.

(** A promise chain nobody waits for: its effects happen, its outcome is
    dropped. *)
Definition detach {A} (m : M A) : M unit :=
  fun st => (Resolved tt, snd (m st)).

Definition updateSavedServer (url : string) (index : nat) : M unit :=
  server ← getDomain index;
  let ignoreCerts := ignoreCerts server in
  detach (
    newServerConf ← checkDomain url ignoreCerts true;
    detach (
      localIconUrl ← saveServerIcon newServerConf ignoreCerts;
      let newServerConf := set_icon newServerConf localIconUrl in
      updateDomain index newServerConf;;
      reloadDB)).

End Registry.

(** The document [reloadDB] leaves behind. *)
Definition reloaded (f : DomainFile) : DomainFile :=
  match f with
  | FileDoc d => FileDoc d
  | _ => FileDoc None
  end.

(** The state once one more effect has been observed. *)
Definition observed (st : State) (evs : list Event) : State :=
  mkState (store st) (dirs st) (files st) (trace st ++ evs)%list.

(** The path [generateFilePath] gives for the icon at [url]. *)
Definition icon_path (W : World) (url : string) : string :=
  server_icons_dir W +:+ "/" +:+ icon_file_name url.

(** The state once [generateFilePath] has seen to the [server-icons]
    directory. *)
Definition with_icons_dir (W : World) (st : State) : State :=
  if bool_decide (server_icons_dir W ∈ dirs st) then st
  else mkState (store st) ({[server_icons_dir W]} ∪ dirs st) (files st)
         (trace st ++ [EvMkdir (server_icons_dir W)])%list.

(** The state once a write stream on a path that [fs] accepts has been
    created. *)
Definition with_stream (W : World) (path : string) (st : State) : State :=
  if file_opens W path
  then mkState (store st) (dirs st) (<[path := EmptyString]> (files st))
         (trace st ++ [EvOpenWrite path])%list
  else observed st [EvOpenWrite path].

(** The state once [content] has been piped into the stream on [path]. *)
Definition piped (live : bool) (path content : string) (st : State) : State :=
  if live
  then mkState (store st) (dirs st) (<[path := content]> (files st)) (trace st)
  else st.

(** The record [checkDomain] builds before it asks the server. *)
Definition fallbackConf (domain : string) (ignoreCerts : bool) : ServerConf :=
  mkServerConf defaultIconUrl domain domain ignoreCerts.

(** The test [checkDomain] applies to a rejection before it escalates to
    [checkCertError]. *)
Definition escalates (domain : string) (err : JsValue) : bool :=
  includes domain whitelistDomains
  || includes (toString (or_empty err)) "certificate".

(** ** The claims as the specification words them, where they differ from
    the code *)

(** "Begins with an HTTP/HTTPS scheme". *)
Definition begins_with_scheme (input : string) : bool :=
  startsWith input "http://" || startsWith input "https://".

Definition is_digit (c : ascii) : bool :=
  (48 <=? Z.of_N (N_of_ascii c)) && (Z.of_N (N_of_ascii c) <=? 57).

(** "Contains [localhost:] followed by a port": somewhere in the input,
    [localhost:] is followed by a digit. *)
Fixpoint localhost_with_port (input : string) : bool :=
  (startsWith input "localhost:"
   && match String.get 10 input with
      | Some c => is_digit c
      | None => false
      end)
  || match input with
     | EmptyString => false
     | String _ rest => localhost_with_port rest
     end.

(** The normalizer as the specification words it. *)
Definition spec_formatUrl (input : string) : string :=
  if begins_with_scheme input then input
  else if localhost_with_port input then "http://" +:+ input
       else "https://" +:+ input.






(** ** Concrete surroundings used in examples *)

Module Sample.

Definition msgs : Messages :=
  mkMessages
    (fun domain => domain +:+ " does not have any organizations added.")
    (fun domain => domain +:+ " does not appear to be a valid Zulip server.")
    (fun domain error =>
       "Do you trust certificate from " +:+ domain +:+ "? " +:+ toString error)
    "You should not proceed.".

(** No server can be reached and the user answers "No". *)
Definition unreachable : World :=
  mkWorld "/data" eq_refl msgs
    (fun _ _ => ReplyError (VError "connect ECONNREFUSED"))
    (fun _ _ => IconRequestError (VError "connect ECONNREFUSED") EmptyString)
    (fun _ => 1)
    (fun _ => true).

(** Every server answers 200 with a body that has no [realm_icon]; the
    user answers "No". *)
Definition no_realm : World :=
  mkWorld "/data" eq_refl msgs
    (fun _ _ => ReplyResponse (mkResponse 200 (BodyJson (mkSettings None "x" "x"))))
    (fun _ _ => IconRequestError (VError "connect ECONNREFUSED") EmptyString)
    (fun _ => 1)
    (fun _ => true).

Definition example_settings : Settings :=
  mkSettings (Some "/icon.png") "https://chat.example.com" "Example".

(** Every server answers 200 with [example_settings]; icons download. *)
Definition healthy : World :=
  mkWorld "/data" eq_refl msgs
    (fun _ _ => ReplyResponse (mkResponse 200 (BodyJson example_settings)))
    (fun _ _ => IconFinish "PNG")
    (fun _ => 1)
    (fun _ => true).

Definition dev_record : ServerConf :=
  mkServerConf "/data/server-icons/1.png" "https://chat.zulipdev.org" "Dev" false.

Definition example_record : ServerConf :=
  mkServerConf "/data/server-icons/2.png" "https://chat.example.com" "Example" false.

Definition cert_record : ServerConf :=
  mkServerConf "/data/server-icons/3.png" "https://certificate.example.com" "Cert" false.

Definition one_cert : State := mkState (FileDoc (Some [cert_record])) ∅ ∅ [].

Definition one_dev : State := mkState (FileDoc (Some [dev_record])) ∅ ∅ [].

Definition one_example : State := mkState (FileDoc (Some [example_record])) ∅ ∅ [].

Definition three : State :=
  mkState (FileDoc (Some [dev_record; example_record; dev_record])) ∅ ∅ [].

End Sample.

(** ** More concrete surroundings *)

Module Scenario.

(** The certificate of every server is refused unless [ignoreCerts] is set,
    in which case the server answers with [Sample.example_settings]; the user
    answers "Yes"; icons download. *)
Definition self_signed : World :=
  mkWorld "/data" eq_refl Sample.msgs
    (fun _ request =>
       if req_ignoreCerts request
       then ReplyResponse (mkResponse 200 (BodyJson Sample.example_settings))
       else ReplyError (VError "self signed certificate"))
    (fun _ _ => IconFinish "PNG")
    (fun _ => 0)
    (fun _ => true).


Definition empty_store : State := mkState (FileDoc None) ∅ ∅ [].

(** As [self_signed], with a user who answers "No". *)
Definition self_signed_declined : World :=
  mkWorld "/data" eq_refl Sample.msgs
    (fun _ request =>
       if req_ignoreCerts request
       then ReplyResponse (mkResponse 200 (BodyJson Sample.example_settings))
       else ReplyError (VError "self signed certificate"))
    (fun _ _ => IconFinish "PNG")
    (fun _ => 1)
    (fun _ => true).

(** A server whose name is full of markup. *)
Definition markup_settings : Settings :=
  mkSettings (Some "/icon.png") "https://chat.example.com" "<b>Tom & 'Jerry'</b>".

Definition markup : World :=
  mkWorld "/data" eq_refl Sample.msgs
    (fun _ _ => ReplyResponse (mkResponse 200 (BodyJson markup_settings)))
    (fun _ _ => IconFinish "PNG")
    (fun _ => 1)
    (fun _ => true).

(** An icon URL whose extension holds a NUL byte, as a server can send it
    in [realm_icon]. *)
Definition nul_icon : string :=
  "https://chat.example.com/icon.p" +:+ String NUL "ng".

Definition nul_server : ServerConf :=
  mkServerConf nul_icon "https://chat.example.com" "Example" false.

(** A server that answers with such an icon. *)
Definition nul_world : World :=
  mkWorld "/data" eq_refl Sample.msgs
    (fun _ _ => ReplyResponse (mkResponse 200
       (BodyJson (mkSettings (Some nul_icon) "https://chat.example.com" "Example"))))
    (fun _ _ => IconFinish "PNG")
    (fun _ => 1)
    (fun _ => true).

(** Icons download, but the operating system opens no file. *)
Definition no_disk : World :=
  mkWorld "/data" eq_refl Sample.msgs
    (fun _ _ => ReplyResponse (mkResponse 200 (BodyJson Sample.example_settings)))
    (fun _ _ => IconFinish "PNG")
    (fun _ => 1)
    (fun _ => false).

End Scenario.

(** ** The scan of [path.extname] *)

(** What the scan of [path.extname] keeps true from index [n] down: once
    the end of the last component is marked, no slash lies between the
    index and the mark, and the dot, once found, lies in between. *)
Definition ext_inv (path : string) (n : nat) (s : ExtScan) : Prop :=
  (endIdx s = -1 /\ startDot s = -1 /\ matchedSlash s = true)
  \/ (matchedSlash s = false
      /\ Z.of_nat n <= endIdx s
      /\ (startDot s = -1 \/ Z.of_nat n <= startDot s < endIdx s)
      /\ forall j, Z.of_nat n <= Z.of_nat j < endIdx s ->
                   charCodeAt path j <> CHAR_FORWARD_SLASH).

Definition ext_good (path : string) (s : ExtScan) : Prop :=
  startDot s = -1 \/ endIdx s = -1
  \/ (0 <= startDot s < endIdx s
      /\ forall j, startDot s <= Z.of_nat j < endIdx s ->
                   charCodeAt path j <> CHAR_FORWARD_SLASH).

(** ** The callers of the registry *)

(** [ServerManagerView.queueDomain]: [checkDomain] with its default
    arguments, then [addDomain]; any exception is logged and turned into
    [false]. *)
Definition queueDomain (W : World) (domain : string) : M bool :=
  try_catch
    (serverConf ← checkDomain W domain false false;
     addDomain W serverConf;;
     ret true)
    (fun err =>
       emit EvLogError;;
       emit EvLogError;;
       ret false).

(** ** Counting effects *)

Definition is_settings_request (e : Event) : bool :=
  match e with EvSettingsRequest _ => true | _ => false end.

Definition is_icon_request (e : Event) : bool :=
  match e with EvIconRequest _ => true | _ => false end.

Definition is_prompt (e : Event) : bool :=
  match e with EvPrompt _ _ => true | _ => false end.

Definition is_error_box (e : Event) : bool :=
  match e with EvErrorBox => true | _ => false end.

Fixpoint count (p : Event -> bool) (tr : list Event) : nat :=
  match tr with
  | [] => 0%nat
  | e :: tr' => ((if p e then 1 else 0) + count p tr')%nat
  end.

(** The state at the moment the user has been asked to trust the
    certificate: the request has failed with [err], the failure has been
    reported, the dialog is on screen. *)
Definition asked (W : World) (domain : string) (ic : bool) (err : JsValue)
    (st : State) : State :=
  observed st
    [EvSettingsRequest (serverSettingsOptions domain ic);
     EvSentry (VError (toString (or_empty err)));
     EvPrompt (certErrorMessage (messages W) domain (or_empty err))
       (certErrorDetail (messages W))].

(** ** [SystemUtil]: the user agent *)

Module SystemUtil.

(** [this.userAgent], [null] at construction. *)
Definition State := option string.

Definition initial : State := None.

(** What [ConfigUtil.getConfigItem('userAgent', null)] returns, as the
    operand of [+]: a string, or [null]. *)
Definition operand (configItem : option string) : string :=
  match configItem with
  | Some s => s
  | None => "null"
  end.

(** [setUserAgent(viewUserAgent)]; [appVersion] is [app.getVersion()]. *)
Definition setUserAgent (appVersion : string) (viewUserAgent : option string)
    (_ : State) : State :=
  Some ("ZulipElectron/" +:+ appVersion +:+ " " +:+ operand viewUserAgent).

(** [!this.userAgent] *)
Definition falsy (userAgent : State) : bool :=
  match userAgent with
  | None => true
  | Some s => String.eqb s EmptyString
  end.

(** [getUserAgent()]: the value returned and the state left. *)
Definition getUserAgent (appVersion : string) (configItem : option string)
    (st : State) : State * State :=
  let st' := if falsy st then setUserAgent appVersion configItem st else st in
  (st', st').

End SystemUtil.

(** * Properties *)

(** Unfolds the plumbing of the monad and of the primitive effects. *)
Ltac run :=
  cbv [mbind M_bind mret M_ret bind ret throw never try_catch emit get_store
       put_store now existsSync mkdirSync open_file pipe_to detach
       showMessageBox request_settings request_icon];
  cbn [fst snd store dirs files trace].

(** ** Strings *)

Lemma length_append (a b : string) :
  String.length (a +:+ b) = (String.length a + String.length b)%nat.
Proof.
  induction a as [|c a IH]; [reflexivity|].
  change (S (String.length (a +:+ b)) = S (String.length a + String.length b)).
  now rewrite IH.
Qed.

Lemma append_longer (p s : string) : p <> EmptyString -> p +:+ s <> s.
Proof.
  intros Hp Heq. apply (f_equal String.length) in Heq.
  rewrite length_append in Heq. destruct p; [congruence | cbn in Heq; lia].
Qed.

Lemma has_char_append (c : ascii) (a b : string) :
  has_char c (a +:+ b) = has_char c a || has_char c b.
Proof.
  induction a as [|x a IH]; [reflexivity|].
  change (has_char c (String x (a +:+ b)) = has_char c (String x a) || has_char c b).
  cbn. rewrite IH. now rewrite orb_assoc.
Qed.

(** ** [formatUrl] *)

Example formatUrl_plain : formatUrl "chat.example.com" = "https://chat.example.com".
Proof. reflexivity. Qed.

Example formatUrl_localhost : formatUrl "localhost:9991" = "http://localhost:9991".
Proof. reflexivity. Qed.

Lemma formatUrl_idempotent (input : string) :
  formatUrl (formatUrl input) = formatUrl input.
Proof.
  unfold formatUrl at 2 3.
  destruct (startsWith input "http") eqn:Hp; [unfold formatUrl; now rewrite Hp|].
  destruct (includes input "localhost:"); reflexivity.
Qed.

Example spec_formatUrl_plain :
  spec_formatUrl "chat.example.com" = "https://chat.example.com"
  /\ spec_formatUrl "localhost:9991" = "http://localhost:9991"
  /\ spec_formatUrl "https://chat.example.com" = "https://chat.example.com".
Proof. repeat split. Qed.

(** [httpbin.org] begins with no scheme and is returned unchanged, and
    [localhost:] without a port gets [http://]. *)
Example formatUrl_off_spec :
  (begins_with_scheme "httpbin.org" = false
   /\ formatUrl "httpbin.org" = "httpbin.org"
   /\ spec_formatUrl "httpbin.org" = "https://httpbin.org")
  /\ (localhost_with_port "localhost:" = false
      /\ formatUrl "localhost:" = "http://localhost:"
      /\ spec_formatUrl "localhost:" = "https://localhost:").
Proof. repeat split. Qed.

(** C5, as stated: the normalizer is not the function the specification
    describes; [httpbin.org], which begins with no scheme, is returned
    unchanged. *)
Lemma formatUrl_scheme_fails :
  ~ (forall input, formatUrl input = spec_formatUrl input).
Proof. intros H. specialize (H "httpbin.org"). discriminate H. Qed.

(** C5, amended: [formatUrl] is total; it returns the input unchanged
    exactly when the input begins with the four characters [http]; otherwise
    it prepends [http://] when the input contains [localhost:] (whether or
    not a port follows) and [https://] in all remaining cases. *)
Theorem formatUrl_cases (input : string) :
  (formatUrl input = input <-> startsWith input "http" = true)
  /\ (startsWith input "http" = false -> includes input "localhost:" = true ->
      formatUrl input = "http://" +:+ input)
  /\ (startsWith input "http" = false -> includes input "localhost:" = false ->
      formatUrl input = "https://" +:+ input).
Proof.
  unfold formatUrl. repeat split.
  - destruct (startsWith input "http"); [reflexivity|].
    destruct (includes input "localhost:"); intros H; exfalso;
      revert H; apply append_longer; discriminate.
  - intros ->. reflexivity.
  - intros -> ->. reflexivity.
  - intros -> ->. reflexivity.
Qed.

Lemma formatUrl_cases_witness :
  formatUrl "localhost:9991" = "http://localhost:9991"
  /\ formatUrl "chat.example.com" = "https://chat.example.com".
Proof.
  split.
  - apply (formatUrl_cases "localhost:9991"); reflexivity.
  - apply (formatUrl_cases "chat.example.com"); reflexivity.
Defined.

(** ** The icon file name *)

Example url_hash_empty : url_hash EmptyString = 5381.
Proof. reflexivity. Qed.

Example url_hash_a : url_hash "a" = 177604.
Proof. reflexivity. Qed.

Example extname_png : extname "https://chat.example.com/icon.png" = ".png".
Proof. reflexivity. Qed.

Example extname_dotfile : extname "/a/.bashrc" = EmptyString.
Proof. reflexivity. Qed.

Example extname_dots : extname "/a/.." = EmptyString.
Proof. reflexivity. Qed.

Example extname_trailing_slash : extname "/a/b.txt//" = ".txt".
Proof. reflexivity. Qed.

Example icon_extension_query :
  icon_extension "https://x.org/icon.png?version=3" = ".png".
Proof. reflexivity. Qed.

Lemma two32_pos : 0 < two32.
Proof. reflexivity. Qed.

Lemma toInt32_range (z : Z) : - 2 ^ 31 <= toInt32 z < 2 ^ 31.
Proof.
  unfold toInt32. pose proof (Z.mod_pos_bound z two32 two32_pos) as Hm.
  destruct (Z.ltb_spec (z mod two32) (2 ^ 31)); unfold two32 in *; lia.
Qed.

Lemma toInt32_mod (z : Z) : toInt32 z mod two32 = z mod two32.
Proof.
  unfold toInt32. destruct (Z.ltb_spec (z mod two32) (2 ^ 31)).
  - apply Z.mod_mod. discriminate.
  - replace (z mod two32 - two32) with (z mod two32 + (-1) * two32) by ring.
    rewrite Z.mod_add by discriminate. apply Z.mod_mod. discriminate.
Qed.

Lemma toInt32_small (c : Z) : 0 <= c < 2 ^ 31 -> toInt32 c = c.
Proof.
  intros Hc. unfold toInt32.
  rewrite (Z.mod_small c two32) by (unfold two32; lia).
  destruct (Z.ltb_spec c (2 ^ 31)); lia.
Qed.

Lemma lxor_mod_two32 (a c : Z) :
  0 <= c < two32 -> Z.lxor a c mod two32 = Z.lxor (a mod two32) c.
Proof.
  intros Hc. unfold two32 in *. apply Z.bits_inj'. intros n Hn.
  rewrite Z.lxor_spec. destruct (Z.lt_ge_cases n 32) as [Hlt|Hge].
  - rewrite !Z.mod_pow2_bits_low by lia. apply Z.lxor_spec.
  - rewrite !Z.mod_pow2_bits_high by lia.
    rewrite <- (Z.mod_small c (2 ^ 32)) by exact Hc.
    rewrite Z.mod_pow2_bits_high by lia. reflexivity.
Qed.

(** One turn of the loop, reduced to an unsigned word, is one step of the
    unsigned hash. *)
Lemma js_xor_step (h c : Z) :
  0 <= c < 2 ^ 16 ->
  toUint32 (js_xor (h * 33) c) = spec_hash_step c (toUint32 h).
Proof.
  intros Hc. unfold toUint32, js_xor, spec_hash_step.
  rewrite (toInt32_small c) by lia.
  rewrite lxor_mod_two32 by (unfold two32; lia).
  rewrite toInt32_mod. f_equal.
  rewrite Z.mul_mod_idemp_l by discriminate. reflexivity.
Qed.

Lemma int32_shiftr (x : Z) :
  - 2 ^ 31 <= x < 2 ^ 31 <-> Z.shiftr x 31 = 0 \/ Z.shiftr x 31 = -1.
Proof.
  rewrite Z.shiftr_div_pow2 by lia.
  change (2 ^ 31) with 2147483648. split; intros H; Z.div_mod_to_equations; lia.
Qed.

Lemma lxor_int32 (a b : Z) :
  - 2 ^ 31 <= a < 2 ^ 31 -> - 2 ^ 31 <= b < 2 ^ 31 ->
  - 2 ^ 31 <= Z.lxor a b < 2 ^ 31.
Proof.
  rewrite !int32_shiftr, Z.shiftr_lxor.
  intros [-> | ->] [-> | ->]; cbn; auto.
Qed.

(** The accumulator stays a signed 32-bit integer, so [hash * 33] is exact
    in double-precision arithmetic. *)
Lemma hash_while_int32 (codes : list Z) (len : nat) (hash : Z) :
  - 2 ^ 31 <= hash < 2 ^ 31 ->
  - 2 ^ 31 <= hash_while codes len hash < 2 ^ 31.
Proof.
  revert hash. induction len as [|len IH]; intros hash Hh; [exact Hh|].
  cbn [hash_while]. apply IH. apply lxor_int32; apply toInt32_range.
Qed.

Lemma hash_while_take (codes : list Z) (len : nat) (hash : Z) :
  Forall (fun c => 0 <= c < 2 ^ 16) codes ->
  (len <= length codes)%nat ->
  toUint32 (hash_while codes len hash)
  = fold_right spec_hash_step (toUint32 hash) (take len codes).
Proof.
  intros Hcodes. revert hash.
  induction len as [|len IH]; intros hash Hlen; [reflexivity|].
  destruct (lookup_lt_is_Some_2 codes len) as [c Hc]; [lia|].
  cbn [hash_while]. rewrite IH by lia.
  rewrite (take_S_r _ _ _ Hc), fold_right_app. cbn [fold_right].
  rewrite (nth_lookup_Some _ _ _ _ Hc).
  rewrite js_xor_step; [reflexivity|].
  rewrite Forall_forall in Hcodes. apply Hcodes.
  eapply list_elem_of_lookup_2. exact Hc.
Qed.

(** The signed loop of the code followed by [>>> 0] computes the unsigned
    rolling hash, for every sequence of UTF-16 code units. *)
Lemma url_hash_codes_spec (codes : list Z) :
  Forall (fun c => 0 <= c < 2 ^ 16) codes ->
  url_hash_codes codes = spec_hash codes.
Proof.
  intros Hcodes. unfold url_hash_codes, spec_hash.
  rewrite hash_while_take by (auto; lia).
  rewrite firstn_all. reflexivity.
Qed.

Lemma charCodes_range (s : string) : Forall (fun c => 0 <= c < 2 ^ 16) (charCodes s).
Proof.
  unfold charCodes. induction s as [|a s IH]; cbn; constructor; [|exact IH].
  pose proof (N_ascii_bounded a). lia.
Qed.

Lemma url_hash_spec (url : string) : url_hash url = spec_hash (charCodes url).
Proof. apply url_hash_codes_spec, charCodes_range. Qed.

Lemma url_hash_range (url : string) : 0 <= url_hash url < two32.
Proof. apply Z.mod_pos_bound, two32_pos. Qed.

(** C4, as stated: taking the extension after the query string is cut off
    is not what the code does; with a dot inside the query string the two
    differ. *)
Lemma icon_file_name_query_first_fails :
  ~ (forall url, icon_file_name url = spec_file_name url).
Proof.
  intros H. specialize (H "https://x.com/icon.png?v=1.2").
  vm_compute in H. discriminate H.
Qed.

Example icon_file_name_versioned :
  icon_file_name "https://x.com/icon.png?v=1.2" = "1175849801.2"
  /\ spec_file_name "https://x.com/icon.png?v=1.2" = "1175849801.png".
Proof. split; vm_compute; reflexivity. Qed.

(** C4, amended: the file name [generateFilePath] computes is the unsigned
    32-bit rolling hash of the URL (seed 5381, multiply by 33, XOR the
    character, from the last character to the first) followed by the
    extension that [path.extname] finds in the whole URL, query string
    included, cut at its first [?]; the name depends on the URL alone. *)
Theorem generateFilePath_name (W : World) (url : string) (st : State) :
  fst (generateFilePath W url st)
  = Resolved (server_icons_dir W +:+ "/" +:+
              of_uint (spec_hash (charCodes url)) +:+
              split_head "?"%char (extname url)).
Proof.
  rewrite <- url_hash_spec. unfold generateFilePath.
  cbv [mbind M_bind bind existsSync mkdirSync ret].
  destruct (bool_decide (server_icons_dir W ∈ dirs st)); reflexivity.
Qed.

Lemma split_head_no_sep (sep : ascii) (s : string) :
  has_char sep s = false -> split_head sep s = s.
Proof.
  induction s as [|c s IH]; cbn; [reflexivity|].
  intros H. apply orb_false_elim in H as [Hc Hs].
  rewrite Hc, IH by exact Hs. reflexivity.
Qed.

Lemma substring_no_char (c : ascii) (s : string) (n m : nat) :
  has_char c s = false -> has_char c (String.substring n m s) = false.
Proof.
  revert n m. induction s as [|c' s IH]; intros n m H.
  - destruct n, m; reflexivity.
  - cbn in H. apply orb_false_elim in H as [Hc Hs].
    destruct n as [|n]; [destruct m as [|m]|]; cbn; [reflexivity| |now apply IH].
    rewrite Hc. now apply IH.
Qed.

Lemma extname_no_char (c : ascii) (path : string) :
  has_char c path = false -> has_char c (extname path) = false.
Proof.
  intros H. unfold extname, slice.
  destruct (_ || _); [reflexivity | now apply substring_no_char].
Qed.

(** For a URL without a query string the order does not matter: the name is
    the one the specification describes. *)
Lemma icon_file_name_no_query (url : string) :
  has_char "?"%char url = false -> icon_file_name url = spec_file_name url.
Proof.
  intros H. unfold icon_file_name, spec_file_name, icon_extension, spec_extension.
  rewrite url_hash_spec, !split_head_no_sep;
    [reflexivity | exact H | now apply extname_no_char].
Qed.

(** ** The store *)

Lemma domains_of_reloaded (f : DomainFile) : domains_of (reloaded f) = domains_of f.
Proof. destruct f; reflexivity. Qed.

Lemma reloadDB_run (st : State) :
  exists tr,
    reloadDB st
    = (Resolved tt, mkState (reloaded (store st)) (dirs st) (files st) (trace st ++ tr))
    /\ (forall d, store st = FileDoc d -> tr = []).
Proof.
  destruct st as [f ds fs tr0]. unfold reloadDB. run.
  destruct f as [| |d]; cbn.
  - exists []. rewrite app_nil_r. split; [reflexivity | discriminate].
  - eexists. rewrite <- !app_assoc. split; [reflexivity | discriminate].
  - exists []. rewrite app_nil_r. split; reflexivity.
Qed.

Lemma reloadDB_doc (st : State) (d : option (list ServerConf)) :
  store st = FileDoc d -> reloadDB st = (Resolved tt, st).
Proof.
  intros Hs. destruct st as [f ds fs tr0]. cbn in Hs. subst f. reflexivity.
Qed.

Lemma getDomains_run (st : State) :
  getDomains st = (Resolved (domains_of (store st)), snd (reloadDB st)).
Proof.
  destruct (reloadDB_run st) as (tr & Hr & _).
  unfold getDomains. run. rewrite Hr. cbn.
  unfold db_data. run.
  destruct (store st) as [| |[l|]]; reflexivity.
Qed.

Lemma duplicateDomain_run (rawUrl : string) (st : State) :
  duplicateDomain rawUrl st
  = (Resolved (existsb (fun server => String.eqb (url server) (formatUrl rawUrl))
                 (domains_of (store st))),
     snd (reloadDB st)).
Proof. unfold duplicateDomain. run. rewrite getDomains_run. reflexivity. Qed.

(** The duplicate test is exact string equality with the stored [url]s. *)
Lemma duplicateDomain_exact (rawUrl : string) (st : State) :
  fst (duplicateDomain rawUrl st) = Resolved true
  <-> exists server, server ∈ domains_of (store st) /\ url server = formatUrl rawUrl.
Proof.
  rewrite duplicateDomain_run. cbn [fst]. split.
  - intros H. injection H as H. apply existsb_exists in H as (server & Hin & Heq).
    exists server. split; [now apply list_elem_of_In | now apply String.eqb_eq].
  - intros (server & Hin & Heq). f_equal. apply existsb_exists.
    exists server. split; [now apply list_elem_of_In | now apply String.eqb_eq].
Qed.

Example trailing_slash_is_not_a_duplicate :
  fst (duplicateDomain "https://chat.example.com/" Sample.one_example)
  = Resolved false.
Proof. reflexivity. Qed.

(** C8: removing index [k] of a collection of [N] records, [k < N], leaves
    [N - 1] records; the records after [k] move down by one, the records
    before [k] stay, and every index below [N - 1] holds a record. *)
Theorem removeDomain_compacts (st : State) (l : list ServerConf) (k : nat) :
  store st = FileDoc (Some l) ->
  (k < length l)%nat ->
  let l' := domains_of (store (snd (removeDomain k st))) in
  fst (removeDomain k st) = Resolved tt
  /\ length l' = (length l - 1)%nat
  /\ (forall j, (k < j)%nat -> l' !! (j - 1)%nat = l !! j)
  /\ (forall j, (j < k)%nat -> l' !! j = l !! j)
  /\ (forall j, (j < length l - 1)%nat -> is_Some (l' !! j)).
Proof.
  intros Hs Hk. destruct st as [f ds fs tr0]. cbn in Hs. subst f.
  unfold removeDomain, db_data, reloadDB. run.
  rewrite bool_decide_eq_true_2 by exact Hk. cbn.
  assert (Hlen : length (delete k l) = (length l - 1)%nat).
  { rewrite length_delete; [reflexivity | now apply lookup_lt_is_Some_2]. }
  repeat split.
  - exact Hlen.
  - intros j Hj. rewrite list_lookup_delete_ge by lia. f_equal. lia.
  - intros j Hj. now apply list_lookup_delete_lt.
  - intros j Hj. apply lookup_lt_is_Some_2. lia.
Qed.

Lemma removeDomain_compacts_witness :
  domains_of (store (snd (removeDomain 0 Sample.three)))
  !! (1 - 1)%nat = Some Sample.example_record.
Proof.
  refine (proj1 (proj2 (proj2
    (removeDomain_compacts Sample.three _ 0 eq_refl _))) 1%nat _);
    cbn; lia.
Defined.

(** C6: with [silent = false], a raw URL whose normal form is the [url] of
    a stored record (exact string equality) makes [checkDomain] fail with the
    duplicate-server error; the state after the call is the state before it,
    so nothing was requested from the network and the store was not
    written. *)
Theorem checkDomain_duplicate (W : World) (rawUrl : string) (ignoreCerts : bool)
    (st : State) (server : ServerConf) :
  server ∈ domains_of (store st) ->
  url server = formatUrl rawUrl ->
  checkDomain W rawUrl ignoreCerts false st
  = (Rejected (VError "This server has been added."), st).
Proof.
  intros Hin Heq. unfold checkDomain. run. cbn [negb].
  rewrite duplicateDomain_run.
  assert (Hdup : existsb (fun s => String.eqb (url s) (formatUrl rawUrl))
                   (domains_of (store st)) = true).
  { apply existsb_exists. exists server.
    split; [now apply list_elem_of_In | now apply String.eqb_eq]. }
  rewrite Hdup.
  destruct (store st) as [| |[l|]] eqn:Hs; cbn in Hin; try now inversion Hin.
  rewrite (reloadDB_doc _ _ Hs). reflexivity.
Qed.

Lemma checkDomain_duplicate_witness :
  checkDomain Sample.healthy "https://chat.example.com" false false Sample.one_example
  = (Rejected (VError "This server has been added."), Sample.one_example).
Proof.
  apply (checkDomain_duplicate Sample.healthy "https://chat.example.com" false
           Sample.one_example Sample.example_record).
  - cbn. apply list_elem_of_here.
  - reflexivity.
Defined.

(** ** The verifier *)

Example escape_markup : escape "<b>Tom & 'Jerry'</b>" = "&lt;b&gt;Tom &amp; &#39;Jerry&#39;&lt;/b&gt;".
Proof. reflexivity. Qed.

(** [getServerSettings] issues one request and touches nothing else. *)
Lemma getServerSettings_state (W : World) (domain : string) (ic : bool) (st : State) :
  snd (getServerSettings W domain ic st)
  = observed st [EvSettingsRequest (serverSettingsOptions domain ic)].
Proof.
  unfold getServerSettings. run.
  destruct (settings_reply W _ _) as [e|[code [|data]]]; cbn; [reflexivity|..].
  - destruct (code =? 200); reflexivity.
  - destruct (code =? 200); [|reflexivity].
    destruct (realm_icon data) as [ri|]; [|reflexivity].
    destruct (String.eqb ri EmptyString); reflexivity.
Qed.

Lemma escape_char_safe (c x : ascii) :
  c = "<"%char \/ c = ">"%char \/ c = ascii_of_nat 34 \/ c = ascii_of_nat 39 ->
  has_char c (escape_char x) = false.
Proof.
  intros [ -> | [ -> | [ -> | -> ] ] ];
    destruct x as [[] [] [] [] [] [] [] []]; reflexivity.
Qed.

Lemma escape_safe (c : ascii) (s : string) :
  c = "<"%char \/ c = ">"%char \/ c = ascii_of_nat 34 \/ c = ascii_of_nat 39 ->
  has_char c (escape s) = false.
Proof.
  intros Hc. induction s as [|x s IH]; [reflexivity|].
  cbn [escape]. rewrite has_char_append, IH, (escape_char_safe c x Hc). reflexivity.
Qed.








(** The record of that witness, written out. *)
Example getServerSettings_markup :
  fst (getServerSettings Scenario.markup "https://chat.example.com" false Sample.one_dev)
  = Resolved (mkServerConf "https://chat.example.com/icon.png" "https://chat.example.com"
                "&lt;b&gt;Tom &amp; &#39;Jerry&#39;&lt;/b&gt;" false).
Proof. reflexivity. Qed.


(** In silent mode, and whenever the duplicate test is passed, the record
    of the server is what [checkDomain] resolves with. *)
Lemma checkDomain_silent_ok (W : World) (rawUrl : string) (ic : bool) (st : State)
    (conf : ServerConf) :
  fst (getServerSettings W (formatUrl rawUrl) ic st) = Resolved conf ->
  fst (checkDomain W rawUrl ic true st) = Resolved conf.
Proof.
  intros H. unfold checkDomain. run. cbn [negb].
  destruct (getServerSettings W (formatUrl rawUrl) ic st) as [[c|e|] st1];
    cbn in H; try discriminate. exact H.
Qed.

Lemma checkDomain_ok (W : World) (rawUrl : string) (ic : bool) (st : State)
    (conf : ServerConf) :
  fst (duplicateDomain rawUrl st) = Resolved false ->
  fst (getServerSettings W (formatUrl rawUrl) ic (snd (reloadDB st))) = Resolved conf ->
  fst (checkDomain W rawUrl ic false st) = Resolved conf.
Proof.
  intros Hdup H. unfold checkDomain. run. cbn [negb].
  rewrite duplicateDomain_run in Hdup |- *. cbn [fst] in Hdup.
  injection Hdup as ->.
  destruct (getServerSettings W (formatUrl rawUrl) ic (snd (reloadDB st)))
    as [[c|e|] st1]; cbn in H; try discriminate. exact H.
Qed.

Example checkDomain_new_server :
  fst (checkDomain Sample.healthy "chat.example.com" false false Sample.one_dev)
  = Resolved (mkServerConf "https://chat.example.com/icon.png"
                "https://chat.example.com" "Example" false).
Proof. reflexivity. Qed.

Example checkDomain_no_organizations :
  fst (checkDomain Sample.no_realm "chat.example.com" false false Sample.one_dev)
  = Rejected (VString "https://chat.example.com does not appear to be a valid Zulip server.").
Proof. reflexivity. Qed.

Lemma checkDomain_silent_run (W : World) (rawUrl : string) (ic : bool) (st : State) :
  checkDomain W rawUrl ic true st
  = (match fst (getServerSettings W (formatUrl rawUrl) ic st) with
     | Resolved conf => Resolved conf
     | Rejected err =>
         if escalates (formatUrl rawUrl) err
         then Resolved (fallbackConf (formatUrl rawUrl) ic)
         else Rejected (VString (invalidZulipServerError (messages W) (formatUrl rawUrl)))
     | Pending => Pending
     end,
     observed st [EvSettingsRequest (serverSettingsOptions (formatUrl rawUrl) ic)]).
Proof.
  rewrite <- (getServerSettings_state W).
  unfold checkDomain. run. cbn [negb].
  destruct (getServerSettings W (formatUrl rawUrl) ic st) as [[c|e|] st1];
    cbn [fst snd]; try reflexivity.
  unfold escalates, checkCertError.
  destruct (includes (formatUrl rawUrl) whitelistDomains
            || includes (toString (or_empty e)) "certificate"); reflexivity.
Qed.




(** C9: in non-silent mode, when the URL is not a duplicate, the request to
    the settings endpoint fails in the way [checkDomain] takes for a
    certificate problem (the URL contains [zulipdev.org], or the text of the
    error contains [certificate]), and the user answers the trust prompt
    with anything but "Yes", [checkDomain] is rejected with the
    untrusted-certificate error and the stored collection is the one from
    before the call, so in particular its length is unchanged; a store that
    held a parseable document is unchanged as a whole. *)
Theorem checkDomain_declined (W : World) (rawUrl : string) (ic : bool) (st : State)
    (err : JsValue) :
  let domain := formatUrl rawUrl in
  let st0 := snd (reloadDB st) in
  let result := checkDomain W rawUrl ic false st in
  fst (duplicateDomain rawUrl st) = Resolved false ->
  fst (getServerSettings W domain ic st0) = Rejected err ->
  escalates domain err = true ->
  dialog_reply W (length (trace st0) + 2)%nat <> 0 ->
  fst result = Rejected (VError "Untrusted certificate.")
  /\ domains_of (store (snd result)) = domains_of (store st)
  /\ length (domains_of (store (snd result))) = length (domains_of (store st))
  /\ (forall d, store st = FileDoc d -> store (snd result) = store st).
Proof.
  cbn zeta. intros Hdup Hfail Hesc Hno.
  assert (Hrun : fst (checkDomain W rawUrl ic false st)
                 = Rejected (VError "Untrusted certificate.")
                 /\ store (snd (checkDomain W rawUrl ic false st))
                    = reloaded (store st)).
  { unfold checkDomain. run. cbn [negb].
    rewrite duplicateDomain_run in Hdup |- *. cbn [fst] in Hdup.
    injection Hdup as Hdup. rewrite Hdup.
    pose proof (getServerSettings_state W (formatUrl rawUrl) ic (snd (reloadDB st)))
      as Hst.
    destruct (getServerSettings W (formatUrl rawUrl) ic (snd (reloadDB st)))
      as [[c|e|] st1]; cbn [fst snd] in Hfail, Hst; try discriminate.
    injection Hfail as ->. unfold escalates in Hesc. rewrite Hesc.
    unfold checkCertError. run. subst st1. cbn [observed trace store].
    rewrite !length_app. cbn [length].
    replace (length (trace (snd (reloadDB st))) + 1 + 1)%nat
      with (length (trace (snd (reloadDB st))) + 2)%nat by lia.
    apply Z.eqb_neq in Hno. rewrite Hno. cbn [fst snd store].
    split; [reflexivity|].
    destruct (reloadDB_run st) as (tr & -> & _). reflexivity. }
  destruct Hrun as [Hout Hstore]. rewrite Hstore, domains_of_reloaded.
  repeat split; [exact Hout|].
  intros d Hd. rewrite Hd. reflexivity.
Qed.

(** A server with a self-signed certificate on the development domain: the
    request fails in the transport, so that the error [checkDomain] sees is
    [undefined]; the URL makes it ask, and the user declines. *)
Lemma checkDomain_declined_witness :
  fst (getServerSettings Scenario.self_signed_declined "https://chat.zulipdev.org" false
         Sample.one_example) = Rejected VUndefined
  /\ fst (checkDomain Scenario.self_signed_declined "chat.zulipdev.org" false false
            Sample.one_example)
     = Rejected (VError "Untrusted certificate.")
  /\ domains_of (store (snd (checkDomain Scenario.self_signed_declined
                               "chat.zulipdev.org" false false Sample.one_example)))
     = [Sample.example_record].
Proof.
  split; [reflexivity|].
  pose proof (checkDomain_declined Scenario.self_signed_declined "chat.zulipdev.org"
                false Sample.one_example VUndefined) as H.
  cbv zeta in H.
  destruct H as (Hout & Hsame & _);
    [reflexivity | reflexivity | reflexivity | discriminate |].
  split; [exact Hout | exact Hsame].
Defined.

(** The same decline when the text of the failure says [certificate]: the
    only such failure is the no-organizations message for a URL that holds
    the word. *)
Example checkDomain_declined_by_text :
  fst (checkDomain Sample.no_realm "certificate.example.com" false false Sample.one_dev)
  = Rejected (VError "Untrusted certificate.").
Proof. reflexivity. Qed.

(** A certificate failure outside the development domain never reaches the
    prompt: the text of the transport error is lost with [reject(response)],
    and the call is rejected as an invalid server. *)
Example checkDomain_self_signed_elsewhere :
  fst (checkDomain Scenario.self_signed_declined "chat.example.org" false false
         Sample.one_example)
  = Rejected (VString "https://chat.example.org does not appear to be a valid Zulip server.")
  /\ count is_prompt
       (trace (snd (checkDomain Scenario.self_signed_declined "chat.example.org" false
                      false Sample.one_example))) = 0%nat.
Proof. split; reflexivity. Qed.

(** ** The icon fetcher *)

Lemma icon_path_nul (W : World) (url : string) :
  has_char NUL (icon_path W url) = has_char NUL (icon_file_name url).
Proof.
  unfold icon_path, server_icons_dir.
  rewrite !has_char_append, (userData_path W). reflexivity.
Qed.

Lemma default_icon_name : has_char NUL (icon_file_name defaultIconUrl) = false.
Proof. vm_compute. reflexivity. Qed.

Lemma generateFilePath_run (W : World) (url : string) (st : State) :
  generateFilePath W url st = (Resolved (icon_path W url), with_icons_dir W st).
Proof.
  unfold generateFilePath, with_icons_dir. run.
  destruct (bool_decide (server_icons_dir W ∈ dirs st)); reflexivity.
Qed.

Lemma createWriteStream_run (W : World) (path : string) (st : State) :
  createWriteStream W path st
  = if has_char NUL path then (Rejected nul_path_error, st)
    else (Resolved (file_opens W path), with_stream W path st).
Proof.
  unfold createWriteStream, with_stream.
  destruct (has_char NUL path); [reflexivity|].
  destruct (file_opens W path); reflexivity.
Qed.

(** Every path through [saveServerIcon]. *)
Lemma saveServerIcon_run (W : World) (server : ServerConf) (ic : bool) (st : State) :
  saveServerIcon W server ic st
  = let path := icon_path W (icon server) in
    let live := file_opens W path in
    let request := mkRequest (icon server) (url server) ic in
    let st0 := with_icons_dir W st in
    let st1 := with_stream W path st0 in
    let st2 := observed st1 [EvIconRequest request] in
    if has_char NUL (icon_file_name (icon server))
    then (Rejected nul_path_error, st0)
    else if String.eqb (icon server) defaultIconUrl
    then (Resolved defaultIconUrl, observed st1 [EvLog "Could not get server icon."])
    else match icon_reply W (length (trace st1)) request with
         | IconThrows err => icon_failed err st2
         | IconRequestError err written => icon_failed err (piped live path written st2)
         | IconResponseError err written => icon_failed err (piped live path written st2)
         | IconFinish content =>
             (if live then Resolved path else Pending, piped live path content st2)
         | IconUnanswered => (Pending, st2)
         end.
Proof.
  cbn zeta. unfold saveServerIcon.
  change (mbind ?k ?m) with (bind m k) at 1. unfold bind at 1.
  rewrite generateFilePath_run.
  change (mbind ?k ?m) with (bind m k) at 1. unfold bind at 1.
  rewrite createWriteStream_run, icon_path_nul.
  destruct (has_char NUL (icon_file_name (icon server))); [reflexivity|].
  cbn [req_url].
  destruct (String.eqb (icon server) defaultIconUrl); [reflexivity|].
  run. destruct (icon_reply W _ _); try reflexivity.
  all: unfold piped; destruct (file_opens W _); reflexivity.
Qed.

Lemma icon_failed_run (err : JsValue) (st : State) :
  icon_failed err st
  = (Resolved defaultIconUrl,
     observed st [EvLog "Could not get server icon."; EvLog (toString err); EvSentry err]).
Proof.
  unfold icon_failed, observed. run. rewrite <- !app_assoc. reflexivity.
Qed.

Lemma with_icons_dir_store (W : World) (st : State) : store (with_icons_dir W st) = store st.
Proof. unfold with_icons_dir. destruct (bool_decide _); reflexivity. Qed.

Lemma with_stream_store (W : World) (path : string) (st : State) :
  store (with_stream W path st) = store st.
Proof. unfold with_stream. destruct (file_opens W path); reflexivity. Qed.

Lemma piped_store (live : bool) (path content : string) (st : State) :
  store (piped live path content st) = store st.
Proof. destruct live; reflexivity. Qed.

Lemma with_icons_dir_made (W : World) (st : State) :
  server_icons_dir W ∈ dirs (with_icons_dir W st).
Proof.
  unfold with_icons_dir.
  destruct (bool_decide (server_icons_dir W ∈ dirs st)) eqn:Hdir.
  - apply bool_decide_eq_true in Hdir. exact Hdir.
  - cbn [dirs]. apply elem_of_union_l, elem_of_singleton. reflexivity.
Qed.

Lemma with_icons_dir_trace (W : World) (st : State) :
  exists pre,
    trace (with_icons_dir W st) = (trace st ++ pre)%list
    /\ (pre = [] \/ pre = [EvMkdir (server_icons_dir W)]).
Proof.
  unfold with_icons_dir. destruct (bool_decide _).
  - exists []. rewrite app_nil_r. auto.
  - eexists. split; [reflexivity | auto].
Qed.

Lemma with_stream_trace (W : World) (path : string) (st : State) :
  trace (with_stream W path st) = (trace st ++ [EvOpenWrite path])%list.
Proof. unfold with_stream. destruct (file_opens W path); reflexivity. Qed.

Lemma with_stream_dirs (W : World) (path : string) (st : State) :
  dirs (with_stream W path st) = dirs st.
Proof. unfold with_stream. destruct (file_opens W path); reflexivity. Qed.

Lemma piped_dirs (live : bool) (path content : string) (st : State) :
  dirs (piped live path content st) = dirs st.
Proof. destruct live; reflexivity. Qed.

Lemma piped_trace (live : bool) (path content : string) (st : State) :
  trace (piped live path content st) = trace st.
Proof. destruct live; reflexivity. Qed.

(** C3: [saveServerIcon] does not resolve for every icon URL.  The promise
    executor calls [fs.createWriteStream] on the hash-named path before its
    [try]; when the extension that the URL gives to that path holds a NUL
    byte, the call throws, and the promise is rejected with the exception:
    it resolves with no value, neither the path nor the default icon.  The
    [server-icons] directory has been made by then, no file has been
    created, and nothing has been requested or logged. *)
Theorem saveServerIcon_rejects (W : World) (server : ServerConf) (ic : bool) (st : State) :
  has_char NUL (icon_file_name (icon server)) = true ->
  let result := saveServerIcon W server ic st in
  fst result = Rejected nul_path_error
  /\ (forall v, fst result <> Resolved v)
  /\ snd result = with_icons_dir W st
  /\ files (snd result) = files st.
Proof.
  intros Hnul. cbn zeta. rewrite saveServerIcon_run. cbn zeta. rewrite Hnul.
  cbn [fst snd]. repeat split; [discriminate|].
  unfold with_icons_dir. destruct (bool_decide _); reflexivity.
Qed.

Lemma saveServerIcon_rejects_witness :
  has_char NUL (icon_file_name Scenario.nul_icon) = true
  /\ fst (saveServerIcon Sample.healthy Scenario.nul_server false Scenario.empty_store)
     = Rejected nul_path_error.
Proof.
  split; [vm_compute; reflexivity|].
  apply (saveServerIcon_rejects Sample.healthy Scenario.nul_server false
           Scenario.empty_store).
  vm_compute. reflexivity.
Defined.

(** The promise does not settle either when the operating system does not
    open the file and the download runs to its end: the stream never emits
    ['finish']. *)
Example saveServerIcon_never_settles :
  fst (saveServerIcon Scenario.no_disk Sample.example_record false Scenario.empty_store)
  = Pending.
Proof. vm_compute. reflexivity. Qed.

(** C10, as stated: a call of [saveServerIcon] need not leave a file at the
    hash-named path.  For an icon URL whose extension holds a NUL byte the
    directory is made, the stream cannot be created, and no file is there
    after the call. *)
Lemma saveServerIcon_leaves_no_file :
  let st' := snd (saveServerIcon Sample.healthy Scenario.nul_server false
                    Scenario.empty_store) in
  fst (saveServerIcon Sample.healthy Scenario.nul_server false Scenario.empty_store)
  = Rejected nul_path_error
  /\ server_icons_dir Sample.healthy ∈ dirs st'
  /\ files st' !! icon_path Sample.healthy (icon Scenario.nul_server) = None
  /\ files st' = ∅
  /\ trace st' = [EvMkdir (server_icons_dir Sample.healthy)].
Proof.
  cbn zeta. rewrite saveServerIcon_run. cbn zeta.
  assert (Hnul : has_char NUL (icon_file_name (icon Scenario.nul_server)) = true)
    by (vm_compute; reflexivity).
  rewrite Hnul. cbn [fst snd].
  split; [reflexivity|]. split; [apply with_icons_dir_made|].
  repeat split.
Qed.

(** C10, amended: when the hash-named file name holds no NUL byte, every
    call of [saveServerIcon] leaves the [server-icons] directory on disk and
    creates the write stream on the hash-named path before anything else is
    logged or requested, and when the operating system opens the file, a
    file is at that path after the call; when the icon URL is the default
    icon (whose file name holds no NUL byte), the call resolves with the
    default icon, requests nothing, and the file it leaves is empty. *)
Theorem saveServerIcon_opens_file_first (W : World) (server : ServerConf) (ic : bool)
    (st : State) :
  let dir := server_icons_dir W in
  let path := dir +:+ "/" +:+ icon_file_name (icon server) in
  let st' := snd (saveServerIcon W server ic st) in
  has_char NUL (icon_file_name (icon server)) = false ->
  dir ∈ dirs st'
  /\ (file_opens W path = true -> is_Some (files st' !! path))
  /\ (exists pre post,
        trace st' = (trace st ++ pre ++ EvOpenWrite path :: post)%list
        /\ (pre = [] \/ pre = [EvMkdir dir])
        /\ (icon server = defaultIconUrl ->
            post = [EvLog "Could not get server icon."]))
  /\ (icon server = defaultIconUrl ->
      fst (saveServerIcon W server ic st) = Resolved defaultIconUrl
      /\ (file_opens W path = true -> files st' !! path = Some EmptyString)).
Proof.
  cbn zeta. intros Hnul. rewrite saveServerIcon_run. cbn zeta. rewrite Hnul.
  fold (icon_path W (icon server)).
  set (path := icon_path W (icon server)).
  set (request := mkRequest (icon server) (url server) ic).
  pose proof (with_icons_dir_made W st) as Hdir.
  destruct (with_icons_dir_trace W st) as (pre & Hpre & Hshape).
  set (st0 := with_icons_dir W st) in *.
  assert (Hfile : forall content,
             file_opens W path = true ->
             files (piped (file_opens W path) path content
                      (observed (with_stream W path st0) [EvIconRequest request]))
               !! path = Some content).
  { intros content Ho. rewrite Ho. cbn [piped files]. apply lookup_insert_eq. }
  assert (Hempty : file_opens W path = true ->
                   files (with_stream W path st0) !! path = Some EmptyString).
  { intros Ho. unfold with_stream. rewrite Ho. cbn [files]. apply lookup_insert_eq. }
  destruct (String.eqb (icon server) defaultIconUrl) eqn:Hurl.
  - cbn [fst snd observed dirs files trace].
    rewrite with_stream_dirs, with_stream_trace, Hpre.
    split; [exact Hdir|]. split; [intros Ho; rewrite Hempty; eauto|].
    split; [|intros _; split; [reflexivity | exact Hempty]].
    exists pre, [EvLog "Could not get server icon."].
    rewrite <- !app_assoc. repeat split; auto.
  - apply String.eqb_neq in Hurl.
    rewrite with_stream_trace.
    destruct (icon_reply W _ request) as [err|err written|err written|content|];
      rewrite ?icon_failed_run; cbn [fst snd observed dirs files trace];
      rewrite ?piped_dirs, ?piped_trace; cbn [observed dirs trace];
      rewrite with_stream_dirs, with_stream_trace, Hpre;
      (split; [exact Hdir|]);
      (split; [intros Ho; first [rewrite Hfile by exact Ho; eauto
                               | cbn [files]; rewrite Hempty by exact Ho; eauto]|]);
      (split; [|intros Hd; congruence]);
      eexists pre, _; rewrite <- !app_assoc; cbn [app];
      (split; [reflexivity|]); (split; [exact Hshape | intros Hd; congruence]).
Qed.

Lemma saveServerIcon_store (W : World) (server : ServerConf) (ic : bool) (st : State) :
  store (snd (saveServerIcon W server ic st)) = store st.
Proof.
  rewrite saveServerIcon_run. cbn zeta.
  destruct (has_char NUL _); [apply with_icons_dir_store|].
  destruct (String.eqb _ _);
    [cbn [snd observed store]; now rewrite with_stream_store, with_icons_dir_store|].
  destruct (icon_reply W _ _); rewrite ?icon_failed_run; cbn [snd observed store];
    rewrite ?piped_store; cbn [observed store];
    now rewrite with_stream_store, with_icons_dir_store.
Qed.


Lemma saveServerIcon_opens_file_first_witness :
  fst (saveServerIcon Sample.unreachable
         (fallbackConf "https://chat.zulipdev.org" false) false Sample.one_dev)
  = Resolved defaultIconUrl
  /\ files (snd (saveServerIcon Sample.unreachable
                   (fallbackConf "https://chat.zulipdev.org" false) false Sample.one_dev))
       !! (server_icons_dir Sample.unreachable +:+ "/" +:+ icon_file_name defaultIconUrl)
     = Some EmptyString.
Proof.
  pose proof (saveServerIcon_opens_file_first Sample.unreachable
                (fallbackConf "https://chat.zulipdev.org" false) false Sample.one_dev
                default_icon_name) as (_ & _ & _ & H).
  destruct (H eq_refl) as [Hres Hfile].
  split; [exact Hres | apply Hfile; reflexivity].
Defined.

(** ** The background refresh *)

Lemma getDomain_run (st : State) (l : list ServerConf) (i : nat) (d : ServerConf) :
  store st = FileDoc (Some l) -> l !! i = Some d ->
  getDomain i st = (Resolved d, st).
Proof.
  intros Hs Hi. unfold getDomain. run.
  rewrite (reloadDB_doc _ _ Hs). unfold db_data. run.
  rewrite Hs, Hi. reflexivity.
Qed.

Lemma updateDomain_run (st : State) (l : list ServerConf) (i : nat) (server : ServerConf) :
  store st = FileDoc (Some l) -> (i < length l)%nat ->
  store (snd (updateDomain i server st)) = FileDoc (Some (<[i := server]> l)).
Proof.
  intros Hs Hi. unfold updateDomain. run.
  rewrite (reloadDB_doc _ _ Hs). unfold db_data. run.
  rewrite Hs. rewrite bool_decide_eq_true_2 by exact Hi. reflexivity.
Qed.

(** What the refresh leaves in the store: the record at [index] is replaced
    when the silent check resolves, and only then. *)
Lemma updateSavedServer_store (W : World) (rawUrl : string) (i : nat) (st : State)
    (l : list ServerConf) (d : ServerConf) :
  store st = FileDoc (Some l) -> l !! i = Some d ->
  store (snd (updateSavedServer W rawUrl i st))
  = match checkDomain W rawUrl (ignoreCerts d) true st with
    | (Resolved conf, st1) =>
        match fst (saveServerIcon W conf (ignoreCerts d) st1) with
        | Resolved localIconUrl => FileDoc (Some (<[i := set_icon conf localIconUrl]> l))
        | _ => FileDoc (Some l)
        end
    | _ => FileDoc (Some l)
    end.
Proof.
  intros Hs Hi. unfold updateSavedServer. run.
  rewrite (getDomain_run _ _ _ _ Hs Hi).
  assert (Hst : snd (checkDomain W rawUrl (ignoreCerts d) true st)
               = observed st [EvSettingsRequest
                   (serverSettingsOptions (formatUrl rawUrl) (ignoreCerts d))])
    by (rewrite checkDomain_silent_run; reflexivity).
  destruct (checkDomain W rawUrl (ignoreCerts d) true st) as [[conf|e|] st1];
    cbn [fst snd] in *; [|subst st1; exact Hs..].
  pose proof (saveServerIcon_store W conf (ignoreCerts d) st1) as Hst2.
  destruct (saveServerIcon W conf (ignoreCerts d) st1) as [[v|e|] st2];
    cbn [fst snd] in *; [|rewrite Hst2; subst st1; exact Hs..].
  assert (Hs2 : store st2 = FileDoc (Some l)) by (rewrite Hst2; subst st1; exact Hs).
  pose proof (updateDomain_run st2 l i (set_icon conf v) Hs2
                (lookup_lt_Some _ _ _ Hi)) as Hup.
  destruct (updateDomain i (set_icon conf v) st2) as [[[]|e|] st3]; cbn [snd] in *;
    try exact Hup.
  rewrite (reloadDB_doc _ _ Hup). exact Hup.
Qed.


(** The same happens when the text of the failure contains [certificate]. *)
Example updateSavedServer_certificate_text_overwrites :
  includes (toString (VString (noOrgsError Sample.msgs "https://certificate.example.com")))
    "certificate" = true
  /\ fst (getServerSettings Sample.no_realm "https://certificate.example.com" false
            Sample.one_cert)
     = Rejected (VString (noOrgsError Sample.msgs "https://certificate.example.com"))
  /\ domains_of (store (snd (updateSavedServer Sample.no_realm
                               "https://certificate.example.com" 0 Sample.one_cert))) !! 0%nat
     = Some (fallbackConf "https://certificate.example.com" false).
Proof. repeat split; vm_compute; reflexivity. Qed.





(** * Further properties of the registry *)

Lemma count_app (p : Event -> bool) (a b : list Event) :
  count p (a ++ b) = (count p a + count p b)%nat.
Proof. induction a as [|e a IH]; cbn; [reflexivity | rewrite IH; lia]. Qed.

(** ** The store file *)

(** [reloadDB] always succeeds and leaves a parseable document holding the
    collection the file held; a second [reloadDB] changes nothing; the error
    box is shown exactly when the file did not parse. *)
Theorem reloadDB_recovers (st : State) :
  let st' := snd (reloadDB st) in
  fst (reloadDB st) = Resolved tt
  /\ store st' = reloaded (store st)
  /\ domains_of (store st') = domains_of (store st)
  /\ reloadDB st' = (Resolved tt, st')
  /\ dirs st' = dirs st /\ files st' = files st
  /\ exists tr,
       trace st' = (trace st ++ tr)%list
       /\ count is_error_box tr
          = match store st with FileCorrupt => 1%nat | _ => 0%nat end
       /\ count is_settings_request tr = 0%nat
       /\ count is_prompt tr = 0%nat.
Proof.
  cbn zeta. destruct st as [f ds fs tr0]. unfold reloadDB. run.
  destruct f as [| |d]; cbn; repeat split; try reflexivity.
  - exists []. rewrite app_nil_r. repeat split.
  - eexists. rewrite <- !app_assoc. cbn. repeat split.
  - exists []. rewrite app_nil_r. repeat split.
Qed.

(** [getDomains] never throws: it returns the stored collection, the empty
    list when the file is missing, does not parse or has no [domains] key;
    asking again returns the same list. *)
Theorem getDomains_total (st : State) :
  fst (getDomains st) = Resolved (domains_of (store st))
  /\ ((forall l, store st <> FileDoc (Some l)) -> fst (getDomains st) = Resolved [])
  /\ fst (getDomains (snd (getDomains st))) = fst (getDomains st).
Proof.
  rewrite !getDomains_run. cbn [fst snd]. repeat split.
  - intros Hne. f_equal.
    destruct (store st) as [| |[l|]]; try reflexivity.
    now destruct (Hne l).
  - destruct (reloadDB_run st) as (tr & -> & _). cbn [snd store].
    now rewrite domains_of_reloaded.
Qed.

Lemma getDomains_total_witness :
  fst (getDomains (mkState FileCorrupt ∅ ∅ [])) = Resolved [].
Proof.
  apply (proj1 (proj2 (getDomains_total (mkState FileCorrupt ∅ ∅ [])))).
  discriminate.
Defined.

(** [updateDomain] followed by [getDomain]: the record written at an index
    in range is the record read there, the other indices read as before, and
    the collection keeps its length. *)
Theorem updateDomain_getDomain (st : State) (l : list ServerConf) (i : nat)
    (server : ServerConf) :
  store st = FileDoc (Some l) ->
  (i < length l)%nat ->
  let st' := snd (updateDomain i server st) in
  fst (updateDomain i server st) = Resolved tt
  /\ fst (getDomain i st') = Resolved server
  /\ (forall j, j <> i -> fst (getDomain j st') = fst (getDomain j st))
  /\ length (domains_of (store st')) = length l.
Proof.
  intros Hs Hi. cbn zeta.
  pose proof (updateDomain_run st l i server Hs Hi) as Hup.
  assert (Hout : fst (updateDomain i server st) = Resolved tt).
  { unfold updateDomain. run. rewrite (reloadDB_doc _ _ Hs). unfold db_data. run.
    rewrite Hs, bool_decide_eq_true_2 by exact Hi. reflexivity. }
  assert (Hget : forall st1 l1 j, store st1 = FileDoc (Some l1) ->
            fst (getDomain j st1)
            = match l1 !! j with
              | Some s => Resolved s
              | None => Rejected (VError "DataError")
              end).
  { intros st1 l1 j H1. unfold getDomain. run. rewrite (reloadDB_doc _ _ H1).
    unfold db_data. run. rewrite H1. destruct (l1 !! j); reflexivity. }
  repeat split.
  - exact Hout.
  - rewrite (Hget _ _ _ Hup), list_lookup_insert_eq by exact Hi. reflexivity.
  - intros j Hj. rewrite (Hget _ _ _ Hup), (Hget _ _ _ Hs).
    rewrite list_lookup_insert_ne by congruence. reflexivity.
  - rewrite Hup. cbn. apply length_insert.
Qed.

Lemma updateDomain_getDomain_witness :
  fst (getDomain 1 (snd (updateDomain 1 Sample.cert_record Sample.three)))
  = Resolved Sample.cert_record.
Proof.
  refine (proj1 (proj2
    (updateDomain_getDomain Sample.three _ 1 Sample.cert_record eq_refl _))).
  cbn. lia.
Defined.

(** An update at the index just past the end appends, and an update at
    index 0 of a document without [domains] creates the array. *)
Example updateDomain_at_length :
  updateDomain 1 Sample.cert_record Sample.one_dev
  = (Resolved tt,
     mkState (FileDoc (Some [Sample.dev_record; Sample.cert_record]))
       (dirs Sample.one_dev) (files Sample.one_dev) (trace Sample.one_dev))
  /\ domains_of (store (snd (updateDomain 0 Sample.dev_record Scenario.empty_store)))
     = [Sample.dev_record].
Proof. split; reflexivity. Qed.

(** ** Adding and removing records *)

Lemma saveServerIcon_value (W : World) (server : ServerConf) (ic : bool) (st : State)
    (v : string) :
  fst (saveServerIcon W server ic st) = Resolved v ->
  v = server_icons_dir W +:+ "/" +:+ icon_file_name (icon server)
  \/ v = defaultIconUrl.
Proof.
  rewrite saveServerIcon_run. cbn zeta.
  destruct (has_char NUL _); [discriminate|].
  destruct (String.eqb _ _); [intros [= <-]; now right|].
  destruct (icon_reply W _ _); rewrite ?icon_failed_run; cbn [fst];
    try discriminate; try (intros [= <-]; now right).
  destruct (file_opens W _); [intros [= <-]; now left | discriminate].
Qed.

Lemma db_append_run (st : State) (d : option (list ServerConf)) (server : ServerConf) :
  store st = FileDoc d ->
  (db_append server;; reloadDB) st
  = (Resolved tt,
     mkState (FileDoc (Some (domains_of (store st) ++ [server])%list)) (dirs st) (files st)
       (trace st)).
Proof.
  intros Hs. unfold db_append, db_data, reloadDB. run. rewrite Hs.
  destruct d as [l|]; reflexivity.
Qed.

Lemma lost_append_run (st : State) (d : option (list ServerConf)) (server : ServerConf) :
  store st = FileDoc d ->
  lost_on_throw (db_append server;; reloadDB) st
  = (Resolved tt,
     mkState (FileDoc (Some (domains_of (store st) ++ [server])%list)) (dirs st) (files st)
       (trace st)).
Proof. intros Hs. unfold lost_on_throw. now rewrite (db_append_run st d _ Hs). Qed.

(** What [addDomain] does with the outcome of the icon fetch. *)
Lemma addDomain_run (W : World) (server : ServerConf) (st : State)
    (d : option (list ServerConf)) :
  store st = FileDoc d ->
  match (if String.eqb (icon server) EmptyString then Resolved defaultIconUrl
         else fst (saveServerIcon W server (ignoreCerts server) st)) with
  | Resolved v =>
      fst (addDomain W server st) = Resolved tt
      /\ store (snd (addDomain W server st))
         = FileDoc (Some (domains_of (store st) ++ [set_icon server v])%list)
  | _ =>
      fst (addDomain W server st) = Pending
      /\ store (snd (addDomain W server st)) = store st
  end.
Proof.
  intros Hs. unfold addDomain.
  destruct (String.eqb (icon server) EmptyString); cbn [negb].
  - rewrite (db_append_run st d _ Hs). cbn. auto.
  - pose proof (saveServerIcon_store W server (ignoreCerts server) st) as Hst.
    unfold lost_on_throw, mbind, M_bind, bind.
    destruct (saveServerIcon W server (ignoreCerts server) st) as [[v|e|] st1];
      cbn [fst snd] in Hst |- *; [|auto..].
    rewrite Hs in Hst.
    pose proof (db_append_run st1 d (set_icon server v) Hst) as Hrun.
    unfold mbind, M_bind, bind in Hrun. rewrite Hrun, Hst. cbn.
    rewrite Hs. auto.
Qed.

Lemma addDomain_added (W : World) (server : ServerConf) (st : State)
    (d : option (list ServerConf)) :
  store st = FileDoc d ->
  fst (addDomain W server st) = Resolved tt ->
  exists v,
    store (snd (addDomain W server st))
    = FileDoc (Some (domains_of (store st) ++ [set_icon server v])%list)
    /\ (v = server_icons_dir W +:+ "/" +:+ icon_file_name (icon server)
        \/ v = defaultIconUrl).
Proof.
  intros Hs Hdone. pose proof (addDomain_run W server st d Hs) as Hrun.
  assert (Hval : forall v,
             (if String.eqb (icon server) EmptyString then Resolved defaultIconUrl
              else fst (saveServerIcon W server (ignoreCerts server) st)) = Resolved v ->
             v = server_icons_dir W +:+ "/" +:+ icon_file_name (icon server)
             \/ v = defaultIconUrl).
  { intros v. destruct (String.eqb (icon server) EmptyString).
    - intros [= <-]. now right.
    - apply saveServerIcon_value. }
  destruct (if String.eqb (icon server) EmptyString then Resolved defaultIconUrl
            else fst (saveServerIcon W server (ignoreCerts server) st)) as [v|e|];
    destruct Hrun as [Hout Hst]; [eauto|congruence..].
Qed.

Lemma addDomain_settles (W : World) (server : ServerConf) (st : State)
    (d : option (list ServerConf)) :
  store st = FileDoc d ->
  fst (addDomain W server st) = Resolved tt
  \/ (fst (addDomain W server st) = Pending
      /\ store (snd (addDomain W server st)) = store st).
Proof.
  intros Hs. pose proof (addDomain_run W server st d Hs) as Hrun.
  destruct (if String.eqb (icon server) EmptyString then Resolved defaultIconUrl
            else fst (saveServerIcon W server (ignoreCerts server) st)) as [v|e|];
    destruct Hrun as [Hout Hst]; auto.
Qed.

(** [addDomain] on a parseable store follows the icon fetch.  When the
    record has no icon, or [saveServerIcon] resolves, [addDomain] resolves
    and appends exactly one record: the records already stored keep their
    positions, the new record is the one passed in with its icon replaced,
    and the icon that is stored is the hash-named local path or the default
    icon, never the remote URL.  When [saveServerIcon] is rejected or never
    settles, [addDomain] never settles and the collection is as before. *)
Theorem addDomain_appends (W : World) (server : ServerConf) (st : State)
    (d : option (list ServerConf)) :
  store st = FileDoc d ->
  let before := domains_of (store st) in
  let after := domains_of (store (snd (addDomain W server st))) in
  let saved :=
    if String.eqb (icon server) EmptyString then Resolved defaultIconUrl
    else fst (saveServerIcon W server (ignoreCerts server) st) in
  (forall v, saved = Resolved v ->
     fst (addDomain W server st) = Resolved tt
     /\ length after = S (length before)
     /\ (forall j, (j < length before)%nat -> after !! j = before !! j)
     /\ after !! length before = Some (set_icon server v)
     /\ (v = server_icons_dir W +:+ "/" +:+ icon_file_name (icon server)
         \/ v = defaultIconUrl))
  /\ ((forall v, saved <> Resolved v) ->
      fst (addDomain W server st) = Pending /\ after = before)
  /\ (fst (addDomain W server st) = Resolved tt <-> exists v, saved = Resolved v).
Proof.
  intros Hs. cbn zeta. pose proof (addDomain_run W server st d Hs) as Hrun.
  assert (Hval : forall v,
             (if String.eqb (icon server) EmptyString then Resolved defaultIconUrl
              else fst (saveServerIcon W server (ignoreCerts server) st)) = Resolved v ->
             v = server_icons_dir W +:+ "/" +:+ icon_file_name (icon server)
             \/ v = defaultIconUrl).
  { intros v. destruct (String.eqb (icon server) EmptyString).
    - intros [= <-]. now right.
    - apply saveServerIcon_value. }
  destruct (if String.eqb (icon server) EmptyString then Resolved defaultIconUrl
            else fst (saveServerIcon W server (ignoreCerts server) st)) as [v|e|];
    destruct Hrun as [Hout Hst]; rewrite Hout, Hst.
  - split; [|split].
    + intros v' [= <-]. cbn [domains_of]. repeat split.
      * rewrite length_app. cbn. lia.
      * intros j Hj. now apply lookup_app_l.
      * rewrite lookup_app_r by lia. now rewrite Nat.sub_diag.
      * now apply Hval.
    + intros Hno. now destruct (Hno v).
    + split; [eauto | reflexivity].
  - split; [discriminate|]. split; [auto|]. split; [discriminate | intros [v Hv]; discriminate].
  - split; [discriminate|]. split; [auto|]. split; [discriminate | intros [v Hv]; discriminate].
Qed.

Lemma addDomain_appends_witness :
  fst (addDomain Sample.healthy Sample.cert_record Sample.one_dev) = Resolved tt
  /\ length (domains_of (store (snd (addDomain Sample.healthy Sample.cert_record
                                       Sample.one_dev)))) = 2%nat.
Proof.
  pose proof (proj1 (addDomain_appends Sample.healthy Sample.cert_record Sample.one_dev
                       _ eq_refl)) as H.
  cbv zeta in H.
  edestruct H as (Hout & Hlen & _); [vm_compute; reflexivity|].
  split; [exact Hout | exact Hlen].
Defined.

(** The other side: an icon URL whose extension holds a NUL byte, or a file
    that cannot be opened, leaves [addDomain] unsettled and the collection
    as it was. *)
Example addDomain_never_settles :
  addDomain Sample.healthy Scenario.nul_server Sample.one_dev
  = (Pending, with_icons_dir Sample.healthy Sample.one_dev)
  /\ fst (addDomain Scenario.no_disk Sample.cert_record Sample.one_dev) = Pending
  /\ domains_of (store (snd (addDomain Scenario.no_disk Sample.cert_record Sample.one_dev)))
     = [Sample.dev_record].
Proof. repeat split; vm_compute; reflexivity. Qed.

(** [addDomain] with an empty icon asks nothing of the network and writes no
    file: only the store changes, and the record is appended with the default
    icon. *)
Theorem addDomain_without_icon (W : World) (server : ServerConf) (st : State)
    (d : option (list ServerConf)) :
  store st = FileDoc d ->
  icon server = EmptyString ->
  addDomain W server st
  = (Resolved tt,
     mkState (FileDoc (Some (domains_of (store st) ++ [set_icon server defaultIconUrl])%list))
       (dirs st) (files st) (trace st)).
Proof.
  intros Hs Hi. unfold addDomain. rewrite Hi. cbn [String.eqb negb].
  apply (db_append_run st d _ Hs).
Qed.

Lemma addDomain_without_icon_witness :
  domains_of (store (snd (addDomain Sample.unreachable
                            (mkServerConf EmptyString "https://a.example" "A" false)
                            Sample.one_dev)))
  = [Sample.dev_record;
     mkServerConf defaultIconUrl "https://a.example" "A" false].
Proof.
  rewrite (addDomain_without_icon Sample.unreachable
             (mkServerConf EmptyString "https://a.example" "A" false)
             Sample.one_dev _ eq_refl eq_refl).
  reflexivity.
Defined.

(** Once [addDomain] of a record whose [url] begins with [http] has
    resolved, the duplicate test on that [url] answers [true]. *)
Theorem addDomain_then_duplicate (W : World) (server : ServerConf) (st : State)
    (d : option (list ServerConf)) :
  store st = FileDoc d ->
  startsWith (url server) "http" = true ->
  fst (addDomain W server st) = Resolved tt ->
  fst (duplicateDomain (url server) (snd (addDomain W server st))) = Resolved true.
Proof.
  intros Hs Hp Hdone. apply duplicateDomain_exact.
  destruct (addDomain_added W server st d Hs Hdone) as (v & Hst & _).
  exists (set_icon server v). rewrite Hst. cbn [domains_of]. split.
  - apply elem_of_app. right. apply list_elem_of_here.
  - unfold formatUrl. rewrite Hp. reflexivity.
Qed.

Lemma addDomain_then_duplicate_witness :
  fst (duplicateDomain "https://certificate.example.com"
         (snd (addDomain Sample.healthy Sample.cert_record Sample.one_dev)))
  = Resolved true.
Proof.
  apply (addDomain_then_duplicate Sample.healthy Sample.cert_record Sample.one_dev _
           eq_refl eq_refl eq_refl).
Defined.

(** While [addDomain] has not resolved, the record is not there. *)
Example addDomain_unsettled_not_found :
  fst (duplicateDomain "https://chat.example.com"
         (snd (addDomain Sample.healthy Scenario.nul_server Sample.one_dev)))
  = Resolved false.
Proof. vm_compute. reflexivity. Qed.

(** A record whose [url] has no scheme is stored as it is, and the
    duplicate test, which normalizes its argument, does not find it. *)
Example addDomain_schemeless_not_found :
  fst (duplicateDomain "chat.example.com"
         (snd (addDomain Sample.healthy
                 (mkServerConf EmptyString "chat.example.com" "Chat" false)
                 Sample.one_dev)))
  = Resolved false.
Proof. reflexivity. Qed.

(** Once [addDomain] has resolved, removing the record it has appended
    gives back the collection from before. *)
Theorem addDomain_removeDomain (W : World) (server : ServerConf) (st : State)
    (d : option (list ServerConf)) :
  store st = FileDoc d ->
  fst (addDomain W server st) = Resolved tt ->
  let st1 := snd (addDomain W server st) in
  let st2 := snd (removeDomain (length (domains_of (store st))) st1) in
  fst (removeDomain (length (domains_of (store st))) st1) = Resolved tt
  /\ domains_of (store st2) = domains_of (store st).
Proof.
  intros Hs Hdone. cbn zeta.
  destruct (addDomain_added W server st d Hs Hdone) as (v & Hst & _).
  destruct (snd (addDomain W server st)) as [f ds fs tr0]. cbn in Hst. subst f.
  unfold removeDomain, db_data, reloadDB. run.
  rewrite bool_decide_eq_true_2 by (rewrite length_app; cbn; lia). cbn.
  split; [reflexivity|].
  set (l := domains_of (store st)).
  clear. induction l as [|x l IH]; cbn; [reflexivity | now f_equal].
Qed.

Lemma addDomain_removeDomain_witness :
  domains_of (store (snd (removeDomain 1
     (snd (addDomain Sample.healthy Sample.cert_record Sample.one_dev)))))
  = [Sample.dev_record].
Proof.
  apply (addDomain_removeDomain Sample.healthy Sample.cert_record Sample.one_dev _
           eq_refl eq_refl).
Defined.

(** After [removeDomains] the collection is empty and no URL is a
    duplicate. *)
Theorem removeDomains_empties (st : State) (d : option (list ServerConf)) (rawUrl : string) :
  store st = FileDoc d ->
  let st' := snd (removeDomains st) in
  fst (removeDomains st) = Resolved tt
  /\ fst (getDomains st') = Resolved []
  /\ fst (duplicateDomain rawUrl st') = Resolved false.
Proof.
  intros Hs. cbn zeta. rewrite getDomains_run, duplicateDomain_run.
  destruct st as [f ds fs tr0]. cbn in Hs. subst f.
  unfold removeDomains, db_data, reloadDB. run. cbn. repeat split.
Qed.

Lemma removeDomains_empties_witness :
  fst (duplicateDomain "https://chat.example.com" (snd (removeDomains Sample.one_example)))
  = Resolved false.
Proof.
  apply (removeDomains_empties Sample.one_example _ "https://chat.example.com" eq_refl).
Defined.

Lemma elem_of_delete_iff (l : list ServerConf) (k : nat) (x : ServerConf) :
  x ∈ delete k l <-> exists j, j <> k /\ l !! j = Some x.
Proof.
  rewrite list_elem_of_lookup. split.
  - intros [j Hj]. destruct (Nat.lt_ge_cases j k) as [Hlt|Hge].
    + rewrite list_lookup_delete_lt in Hj by exact Hlt. exists j. split; [lia | exact Hj].
    + rewrite list_lookup_delete_ge in Hj by exact Hge. exists (S j). split; [lia | exact Hj].
  - intros (j & Hne & Hj). destruct (Nat.lt_ge_cases j k) as [Hlt|Hge].
    + exists j. now rewrite list_lookup_delete_lt.
    + destruct j as [|j]; [lia|]. exists j.
      rewrite list_lookup_delete_ge by lia. exact Hj.
Qed.

(** After [removeDomain k], a URL is a duplicate exactly when its normal
    form is the [url] of a record that was stored at an index other than
    [k]; removing the only record with that [url] makes it new again. *)
Theorem removeDomain_then_duplicate (st : State) (l : list ServerConf) (k : nat)
    (rawUrl : string) :
  store st = FileDoc (Some l) ->
  (k < length l)%nat ->
  fst (duplicateDomain rawUrl (snd (removeDomain k st))) = Resolved true
  <-> exists j server, j <> k /\ l !! j = Some server /\ url server = formatUrl rawUrl.
Proof.
  intros Hs Hk. rewrite duplicateDomain_exact.
  destruct st as [f ds fs tr0]. cbn in Hs. subst f.
  unfold removeDomain, db_data, reloadDB. run.
  rewrite bool_decide_eq_true_2 by exact Hk. cbn. split.
  - intros (server & Hin & Hu). apply elem_of_delete_iff in Hin as (j & Hj & Hl).
    exists j, server. auto.
  - intros (j & server & Hj & Hl & Hu). exists server. split; [|exact Hu].
    apply elem_of_delete_iff. exists j. auto.
Qed.

Lemma removeDomain_then_duplicate_witness :
  fst (duplicateDomain "https://chat.zulipdev.org" (snd (removeDomain 1 Sample.three)))
  = Resolved true.
Proof.
  apply (removeDomain_then_duplicate Sample.three _ 1 "https://chat.zulipdev.org"
           eq_refl); [cbn; lia|].
  exists 0%nat, Sample.dev_record. repeat split. discriminate.
Defined.

(** ** The verifier: every path of [checkDomain] *)

Lemma observed_nil (st : State) : observed st [] = st.
Proof. destruct st. unfold observed. cbn. now rewrite app_nil_r. Qed.

Lemma observed_observed (st : State) (a b : list Event) :
  observed (observed st a) b = observed st (a ++ b).
Proof. unfold observed. cbn. now rewrite app_assoc. Qed.

Lemma reloadDB_quiet (st : State) :
  exists tr,
    reloadDB st = (Resolved tt, mkState (reloaded (store st)) (dirs st) (files st)
                                  (trace st ++ tr)%list)
    /\ count is_settings_request tr = 0%nat
    /\ count is_prompt tr = 0%nat.
Proof.
  destruct st as [f ds fs tr0]. unfold reloadDB. run.
  destruct f as [| |d]; cbn.
  - exists []. rewrite app_nil_r. repeat split.
  - eexists. rewrite <- !app_assoc. cbn. repeat split.
  - exists []. rewrite app_nil_r. repeat split.
Qed.

Lemma getServerSettings_flag (W : World) (domain : string) (ic : bool) (st : State)
    (conf : ServerConf) :
  fst (getServerSettings W domain ic st) = Resolved conf -> ignoreCerts conf = ic.
Proof.
  unfold getServerSettings. run.
  destruct (settings_reply W _ _) as [e|[code [|data]]]; cbn; try discriminate.
  - destruct (code =? 200); discriminate.
  - destruct (code =? 200); [|discriminate].
    destruct (realm_icon data) as [ri|]; [|discriminate].
    destruct (String.eqb ri EmptyString); cbn; [discriminate|].
    intros H. injection H as <-. reflexivity.
Qed.



Lemma getServerSettings_pair (W : World) (domain : string) (ic : bool) (st : State) :
  getServerSettings W domain ic st
  = (fst (getServerSettings W domain ic st),
     observed st [EvSettingsRequest (serverSettingsOptions domain ic)]).
Proof. rewrite <- (getServerSettings_state W). now destruct (getServerSettings _ _ _ _). Qed.

(** The non-silent branch of [checkCertError], from the state [st0] in
    which the request that failed was sent. *)
Lemma checkCertError_asks (W : World) (domain : string) (ic : bool) (err : JsValue)
    (st0 : State) :
  checkCertError W domain (fallbackConf domain ic) (or_empty err) false
    (observed st0 [EvSettingsRequest (serverSettingsOptions domain ic)])
  = if dialog_reply W (length (trace st0) + 2)%nat =? 0 then
      (match fst (getServerSettings W domain true (asked W domain ic err st0)) with
       | Resolved conf => Resolved conf
       | Rejected _ =>
           if strict_eq_string (or_empty err) (noOrgsError (messages W) domain)
           then Rejected (VError (toString (or_empty err)))
           else Resolved (fallbackConf domain true)
       | Pending => Pending
       end,
       observed (asked W domain ic err st0)
         [EvSettingsRequest (serverSettingsOptions domain true)])
    else (Rejected (VError "Untrusted certificate."), asked W domain ic err st0).
Proof.
  unfold checkCertError. run. cbn [observed trace store dirs files].
  rewrite !length_app. cbn [length].
  replace (length (trace st0) + 1 + 1)%nat with (length (trace st0) + 2)%nat by lia.
  assert (Hasked :
    mkState (store st0) (dirs st0) (files st0)
      (((trace st0 ++ [EvSettingsRequest (serverSettingsOptions domain ic)])
        ++ [EvSentry (VError (toString (or_empty err)))])
        ++ [EvPrompt (certErrorMessage (messages W) domain (or_empty err))
              (certErrorDetail (messages W))])
    = asked W domain ic err st0).
  { unfold asked, observed. now rewrite <- !app_assoc. }
  rewrite Hasked.
  destruct (dialog_reply W (length (trace st0) + 2) =? 0); [|reflexivity].
  cbn [set_ignoreCerts ignoreCerts fallbackConf icon url alias].
  rewrite (getServerSettings_pair W domain true (asked W domain ic err st0)).
  cbn [fst snd].
  destruct (fst (getServerSettings W domain true (asked W domain ic err st0)));
    try reflexivity.
  destruct (strict_eq_string (or_empty err) (noOrgsError (messages W) domain));
    reflexivity.
Qed.

(** [checkDomain] with [silent = false], path by path. *)
Lemma checkDomain_loud_run (W : World) (rawUrl : string) (ic : bool) (st : State) :
  let domain := formatUrl rawUrl in
  let st0 := snd (reloadDB st) in
  checkDomain W rawUrl ic false st
  = if existsb (fun server => String.eqb (url server) domain) (domains_of (store st))
    then (Rejected (VError "This server has been added."), st0)
    else
      match fst (getServerSettings W domain ic st0) with
      | Resolved conf =>
          (Resolved conf, observed st0 [EvSettingsRequest (serverSettingsOptions domain ic)])
      | Rejected err =>
          if escalates domain err
          then checkCertError W domain (fallbackConf domain ic) (or_empty err) false
                 (observed st0 [EvSettingsRequest (serverSettingsOptions domain ic)])
          else (Rejected (VString (invalidZulipServerError (messages W) domain)),
                observed st0 [EvSettingsRequest (serverSettingsOptions domain ic)])
      | Pending =>
          (Pending, observed st0 [EvSettingsRequest (serverSettingsOptions domain ic)])
      end.
Proof.
  cbn zeta. unfold checkDomain. run. cbn [negb]. rewrite duplicateDomain_run.
  destruct (existsb _ _); [reflexivity|].
  rewrite (getServerSettings_pair W (formatUrl rawUrl) ic (snd (reloadDB st))).
  cbn [fst snd].
  destruct (fst (getServerSettings W (formatUrl rawUrl) ic (snd (reloadDB st))));
    try reflexivity.
  unfold escalates, fallbackConf.
  destruct (includes (formatUrl rawUrl) whitelistDomains
            || includes (toString (or_empty e)) "certificate"); reflexivity.
Qed.



(** When the user answers "Yes" to the trust prompt, the settings are
    requested a second time with [ignoreCerts = true]; if that request
    succeeds, [checkDomain] resolves with the record of the server, whose
    [ignoreCerts] is [true] whatever flag the caller passed. *)
Theorem checkDomain_trusted (W : World) (rawUrl : string) (ic : bool) (st : State)
    (err : JsValue) (conf : ServerConf) :
  let domain := formatUrl rawUrl in
  let st0 := snd (reloadDB st) in
  fst (duplicateDomain rawUrl st) = Resolved false ->
  fst (getServerSettings W domain ic st0) = Rejected err ->
  escalates domain err = true ->
  dialog_reply W (length (trace st0) + 2)%nat = 0 ->
  fst (getServerSettings W domain true (asked W domain ic err st0)) = Resolved conf ->
  fst (checkDomain W rawUrl ic false st) = Resolved conf
  /\ ignoreCerts conf = true.
Proof.
  cbn zeta. intros Hdup Hfail Hesc Hyes Hretry.
  rewrite duplicateDomain_run in Hdup. cbn [fst] in Hdup. injection Hdup as Hdup.
  rewrite checkDomain_loud_run. cbn zeta. rewrite Hdup, Hfail, Hesc.
  rewrite checkCertError_asks, Hyes, Hretry. cbn.
  split; [reflexivity|]. exact (getServerSettings_flag _ _ _ _ _ Hretry).
Qed.


Lemma checkDomain_frame (W : World) (rawUrl : string) (ic silent : bool) (st : State) :
  store (snd (checkDomain W rawUrl ic silent st))
  = (if silent then store st else reloaded (store st))
  /\ dirs (snd (checkDomain W rawUrl ic silent st)) = dirs st
  /\ files (snd (checkDomain W rawUrl ic silent st)) = files st.
Proof.
  destruct silent.
  - rewrite checkDomain_silent_run. cbn. auto.
  - rewrite checkDomain_loud_run. cbn zeta.
    destruct (reloadDB_quiet st) as (tr & -> & _). cbn [snd].
    destruct (existsb _ _); [cbn; auto|].
    destruct (fst (getServerSettings W _ _ _)); [cbn; auto | | cbn; auto].
    destruct (escalates _ _); [|cbn; auto].
    rewrite checkCertError_asks.
    destruct (dialog_reply W _ =? 0); cbn; auto.
Qed.

(** [checkDomain] never writes: whatever the mode, the replies of the
    network and the answer of the user, the stored collection and the icon
    directory are as before the call, and a store file that held a parseable
    document is unchanged. *)
Theorem checkDomain_writes_nothing (W : World) (rawUrl : string) (ic silent : bool)
    (st : State) :
  let st' := snd (checkDomain W rawUrl ic silent st) in
  domains_of (store st') = domains_of (store st)
  /\ dirs st' = dirs st
  /\ files st' = files st
  /\ (forall d, store st = FileDoc d -> store st' = store st).
Proof.
  cbn zeta.
  destruct (checkDomain_frame W rawUrl ic silent st) as (Hs & Hd & Hf).
  rewrite Hs. repeat split; try assumption.
  - destruct silent; [reflexivity | apply domains_of_reloaded].
  - intros d Hdoc. rewrite Hdoc. destruct silent; reflexivity.
Qed.

Lemma checkDomain_writes_nothing_witness :
  store (snd (checkDomain Sample.no_realm "certificate.example.com" false false
                Sample.one_dev))
  = store Sample.one_dev.
Proof.
  apply (proj2 (proj2 (proj2
    (checkDomain_writes_nothing Sample.no_realm "certificate.example.com" false false
       Sample.one_dev))) (Some [Sample.dev_record])).
  reflexivity.
Defined.

(** One call of [checkDomain] adds to the trace what [reloadDB] reports
    (no request, no prompt) and then one of four sequences: nothing; the
    request; the request, the report to Sentry and the trust prompt; or
    these three followed by a second request, with [ignoreCerts = true].
    So it sends at most two requests and shows at most one prompt, and the
    second request comes after the prompt.  A silent call sends exactly the
    one request; a duplicate is refused before any request. *)
Theorem checkDomain_effects (W : World) (rawUrl : string) (ic silent : bool) (st : State) :
  let first := EvSettingsRequest (serverSettingsOptions (formatUrl rawUrl) ic) in
  let second := EvSettingsRequest (serverSettingsOptions (formatUrl rawUrl) true) in
  exists tr0 body,
    trace (snd (checkDomain W rawUrl ic silent st)) = (trace st ++ tr0 ++ body)%list
    /\ count is_settings_request tr0 = 0%nat
    /\ count is_prompt tr0 = 0%nat
    /\ (body = []
        \/ body = [first]
        \/ (exists e message detail,
              body = [first; EvSentry e; EvPrompt message detail])
        \/ (exists e message detail,
              body = [first; EvSentry e; EvPrompt message detail; second]))
    /\ (count is_settings_request (tr0 ++ body) <= 2)%nat
    /\ (count is_prompt (tr0 ++ body) <= 1)%nat
    /\ (count is_settings_request (tr0 ++ body) = 2%nat ->
        count is_prompt (tr0 ++ body) = 1%nat)
    /\ (silent = true -> tr0 = [] /\ body = [first])
    /\ (silent = false -> fst (duplicateDomain rawUrl st) = Resolved true -> body = []).
Proof.
  cbn zeta. destruct silent.
  - rewrite checkDomain_silent_run. cbn [snd observed trace].
    exists [], [EvSettingsRequest (serverSettingsOptions (formatUrl rawUrl) ic)].
    split; [reflexivity|]. cbn. repeat split; auto; try lia; discriminate.
  - rewrite checkDomain_loud_run, duplicateDomain_run. cbn zeta. cbn [fst].
    destruct (reloadDB_quiet st) as (tr0 & -> & Hreq & Hprompt). cbn [snd].
    assert (Hasked : forall e,
              trace (asked W (formatUrl rawUrl) ic e
                       (mkState (reloaded (store st)) (dirs st) (files st)
                          (trace st ++ tr0)))
              = (trace st ++ tr0 ++
                 [EvSettingsRequest (serverSettingsOptions (formatUrl rawUrl) ic);
                  EvSentry (VError (toString (or_empty e)));
                  EvPrompt (certErrorMessage (messages W) (formatUrl rawUrl) (or_empty e))
                    (certErrorDetail (messages W))])%list).
    { intros e. unfold asked, observed. cbn. now rewrite <- app_assoc. }
    destruct (existsb _ _).
    { exists tr0, []. cbn [fst snd trace]. rewrite app_nil_r, Hreq, Hprompt.
      repeat split; auto; try lia; discriminate. }
    destruct (fst (getServerSettings W _ _ _)) as [c|e|].
    1,3: (exists tr0, [EvSettingsRequest (serverSettingsOptions (formatUrl rawUrl) ic)];
          cbn [fst snd observed trace]; rewrite <- app_assoc, !count_app, Hreq, Hprompt;
          cbn; repeat split; auto; try lia; discriminate).
    destruct (escalates _ _).
    2: (exists tr0, [EvSettingsRequest (serverSettingsOptions (formatUrl rawUrl) ic)];
        cbn [fst snd observed trace]; rewrite <- app_assoc, !count_app, Hreq, Hprompt;
        cbn; repeat split; auto; try lia; discriminate).
    rewrite checkCertError_asks.
    destruct (dialog_reply W _ =? 0); cbn [snd observed trace]; rewrite Hasked.
    + eexists tr0, _. rewrite <- !app_assoc. split; [reflexivity|].
      rewrite !count_app, Hreq, Hprompt. cbn.
      repeat split; try lia; try discriminate.
      right. right. right. eauto.
    + eexists tr0, _. split; [reflexivity|].
      rewrite !count_app, Hreq, Hprompt. cbn.
      repeat split; try lia; try discriminate.
      right. right. left. eauto.
Qed.

Lemma checkDomain_effects_witness :
  exists tr0,
    trace (snd (checkDomain Sample.healthy "https://chat.example.com" false false
                  Sample.one_example))
    = (trace Sample.one_example ++ tr0 ++ [])%list
    /\ count is_settings_request tr0 = 0%nat.
Proof.
  destruct (checkDomain_effects Sample.healthy "https://chat.example.com" false false
              Sample.one_example) as (tr0 & body & Htr & Hreq & _ & _ & _ & _ & _ & _ & Hdup).
  exists tr0. rewrite (Hdup eq_refl eq_refl) in Htr. split; [exact Htr | exact Hreq].
Defined.

(** The longest of the four sequences, on a server of the development
    domain with a self-signed certificate and a user who answers "Yes". *)
Example checkDomain_effects_longest :
  trace (snd (checkDomain Scenario.self_signed "chat.zulipdev.org" false false
                Scenario.empty_store))
  = [EvSettingsRequest (serverSettingsOptions "https://chat.zulipdev.org" false);
     EvSentry (VError EmptyString);
     EvPrompt (certErrorMessage Sample.msgs "https://chat.zulipdev.org" (VString EmptyString))
       (certErrorDetail Sample.msgs);
     EvSettingsRequest (serverSettingsOptions "https://chat.zulipdev.org" true)].
Proof. reflexivity. Qed.

Lemma checkDomain_trusted_witness :
  fst (checkDomain Scenario.self_signed "chat.zulipdev.org" false false Sample.one_example)
  = Resolved (mkServerConf "https://chat.example.com/icon.png"
                "https://chat.example.com" "Example" true).
Proof.
  apply (checkDomain_trusted Scenario.self_signed "chat.zulipdev.org" false
           Sample.one_example VUndefined); reflexivity.
Defined.


(** A request that ends in a network error carries no response, and
    [getServerSettings] rejects with the response: the text of the error is
    lost.  So for a URL outside [zulipdev.org], an error of the transport,
    even one whose text names the certificate, is reported as an invalid
    server and the user is never asked to trust the certificate. *)
Theorem checkDomain_network_error (W : World) (rawUrl : string) (ic : bool) (st : State)
    (error : JsValue) :
  let domain := formatUrl rawUrl in
  let st0 := snd (reloadDB st) in
  fst (duplicateDomain rawUrl st) = Resolved false ->
  settings_reply W (length (trace st0)) (serverSettingsOptions domain ic)
  = ReplyError error ->
  includes domain whitelistDomains = false ->
  checkDomain W rawUrl ic false st
  = (Rejected (VString (invalidZulipServerError (messages W) domain)),
     observed st0 [EvSettingsRequest (serverSettingsOptions domain ic)]).
Proof.
  cbn zeta. intros Hdup Hreply Hwhite.
  rewrite duplicateDomain_run in Hdup. cbn [fst] in Hdup. injection Hdup as Hdup.
  rewrite checkDomain_loud_run. cbn zeta. rewrite Hdup.
  assert (Hfail : fst (getServerSettings W (formatUrl rawUrl) ic (snd (reloadDB st)))
                  = Rejected VUndefined).
  { unfold getServerSettings. run. rewrite Hreply. reflexivity. }
  rewrite Hfail. unfold escalates. rewrite Hwhite. reflexivity.
Qed.

Lemma checkDomain_network_error_witness :
  fst (checkDomain Scenario.self_signed "chat.example.org" false false Sample.one_example)
  = Rejected (VString "https://chat.example.org does not appear to be a valid Zulip server.").
Proof.
  rewrite (checkDomain_network_error Scenario.self_signed "chat.example.org" false
             Sample.one_example (VError "self signed certificate")
             eq_refl eq_refl eq_refl).
  reflexivity.
Defined.

(** ** Normal forms of URLs *)

(** [formatUrl] returns its input behind one of three prefixes (none,
    [http://], [https://]); the result begins with [http], so normalizing
    twice is normalizing once. *)
Theorem formatUrl_normal_form (input : string) :
  (formatUrl input = input
   \/ formatUrl input = "http://" +:+ input
   \/ formatUrl input = "https://" +:+ input)
  /\ startsWith (formatUrl input) "http" = true
  /\ formatUrl (formatUrl input) = formatUrl input.
Proof.
  assert (Hp : startsWith (formatUrl input) "http" = true).
  { unfold formatUrl. destruct (startsWith input "http") eqn:Hp; [exact Hp|].
    destruct (includes input "localhost:"); reflexivity. }
  repeat split.
  - unfold formatUrl. destruct (startsWith input "http"); [now left|].
    destruct (includes input "localhost:"); auto.
  - exact Hp.
  - unfold formatUrl at 1. now rewrite Hp.
Qed.

(** The duplicate test does not depend on whether the caller has already
    normalized the URL. *)
Theorem duplicateDomain_normalized (rawUrl : string) (st : State) :
  duplicateDomain (formatUrl rawUrl) st = duplicateDomain rawUrl st.
Proof. rewrite !duplicateDomain_run. now rewrite formatUrl_idempotent. Qed.

(** ** The background refresh, continued *)

(** [updateSavedServer] on a stored index returns at once and reports
    nothing to its caller, whatever the network answers; afterwards the
    collection has the same length and every record other than the one at
    the index is unchanged. *)
Theorem updateSavedServer_keeps_others (W : World) (rawUrl : string) (i : nat)
    (st : State) (l : list ServerConf) (d : ServerConf) :
  store st = FileDoc (Some l) ->
  l !! i = Some d ->
  let after := domains_of (store (snd (updateSavedServer W rawUrl i st))) in
  fst (updateSavedServer W rawUrl i st) = Resolved tt
  /\ length after = length l
  /\ forall j, j <> i -> after !! j = l !! j.
Proof.
  intros Hs Hi. cbn zeta. split.
  - unfold updateSavedServer. run. rewrite (getDomain_run _ _ _ _ Hs Hi). reflexivity.
  - rewrite (updateSavedServer_store W rawUrl i st l d Hs Hi).
    destruct (checkDomain W rawUrl (ignoreCerts d) true st) as [[conf|e|] st1];
      cbn [domains_of]; auto.
    destruct (fst (saveServerIcon W conf (ignoreCerts d) st1)); cbn [domains_of]; auto.
    split; [apply length_insert|].
    intros j Hj. apply list_lookup_insert_ne. congruence.
Qed.

Lemma updateSavedServer_keeps_others_witness :
  domains_of (store (snd (updateSavedServer Sample.healthy "https://chat.example.com"
                            1 Sample.three))) !! 0%nat
  = Some Sample.dev_record.
Proof.
  refine (proj2 (proj2
    (updateSavedServer_keeps_others Sample.healthy "https://chat.example.com" 1
       Sample.three _ Sample.example_record eq_refl eq_refl)) 0%nat _).
  discriminate.
Defined.

(** When the silent check resolves with a record, the refresh follows the
    icon fetch.  When [saveServerIcon] resolves, the record at the index
    becomes the record of the check with its icon replaced by what
    [saveServerIcon] resolved with: the hash-named local path or the default
    icon.  When [saveServerIcon] is rejected or never settles, the
    collection is left as it was. *)
Theorem updateSavedServer_refreshes (W : World) (rawUrl : string) (i : nat)
    (st : State) (l : list ServerConf) (d conf : ServerConf) :
  store st = FileDoc (Some l) ->
  l !! i = Some d ->
  fst (checkDomain W rawUrl (ignoreCerts d) true st) = Resolved conf ->
  let after := domains_of (store (snd (updateSavedServer W rawUrl i st))) in
  let saved :=
    fst (saveServerIcon W conf (ignoreCerts d)
           (snd (checkDomain W rawUrl (ignoreCerts d) true st))) in
  (forall v, saved = Resolved v ->
     after !! i = Some (set_icon conf v)
     /\ (v = server_icons_dir W +:+ "/" +:+ icon_file_name (icon conf)
         \/ v = defaultIconUrl))
  /\ ((forall v, saved <> Resolved v) -> after = l).
Proof.
  intros Hs Hi Hcheck. cbn zeta.
  rewrite (updateSavedServer_store W rawUrl i st l d Hs Hi).
  destruct (checkDomain W rawUrl (ignoreCerts d) true st) as [[c|e|] st1];
    cbn [fst snd] in Hcheck |- *; try discriminate. injection Hcheck as ->.
  split.
  - intros v Hv. split; [|exact (saveServerIcon_value _ _ _ _ _ Hv)].
    rewrite Hv. cbn [domains_of].
    apply list_lookup_insert_eq. eapply lookup_lt_Some. exact Hi.
  - intros Hno.
    destruct (fst (saveServerIcon W conf (ignoreCerts d) st1)) as [v|e|];
      [now destruct (Hno v) | reflexivity..].
Qed.

Lemma updateSavedServer_refreshes_witness :
  domains_of (store (snd (updateSavedServer Sample.healthy "https://chat.example.com"
                            0 Sample.one_example))) !! 0%nat
  = Some (set_icon (mkServerConf "https://chat.example.com/icon.png"
                      "https://chat.example.com" "Example" false)
            (server_icons_dir Sample.healthy +:+ "/" +:+
             icon_file_name "https://chat.example.com/icon.png")).
Proof.
  refine (proj1 (proj1
    (updateSavedServer_refreshes Sample.healthy "https://chat.example.com" 0
       Sample.one_example [Sample.example_record] Sample.example_record
       (mkServerConf "https://chat.example.com/icon.png"
          "https://chat.example.com" "Example" false)
       eq_refl eq_refl _) _ _)); vm_compute; reflexivity.
Defined.

(** A server that answers with an icon URL that [fs] refuses: the silent
    check resolves, the icon fetch is rejected, and the record stays. *)
Example updateSavedServer_icon_refused :
  domains_of (store (snd (updateSavedServer Scenario.nul_world "https://chat.example.com"
                            0 Sample.one_example)))
  = [Sample.example_record].
Proof. vm_compute. reflexivity. Qed.

(** With an index that holds no record, [updateSavedServer] throws before
    anything is asked of the network, and the state is left as it was. *)
Theorem updateSavedServer_stale_index (W : World) (rawUrl : string) (i : nat)
    (st : State) (d : option (list ServerConf)) :
  store st = FileDoc d ->
  domains_of (store st) !! i = None ->
  updateSavedServer W rawUrl i st = (Rejected (VError "DataError"), st).
Proof.
  intros Hs Hi. unfold updateSavedServer, getDomain. run.
  rewrite (reloadDB_doc _ _ Hs). unfold db_data. run. rewrite Hs in Hi |- *.
  destruct d as [l|]; [|reflexivity]. cbn in Hi. rewrite Hi. reflexivity.
Qed.

Lemma updateSavedServer_stale_index_witness :
  updateSavedServer Sample.healthy "https://chat.example.com" 3 Sample.three
  = (Rejected (VError "DataError"), Sample.three).
Proof.
  apply (updateSavedServer_stale_index Sample.healthy "https://chat.example.com" 3
           Sample.three _ eq_refl eq_refl).
Defined.

(** ** [queueDomain] *)

(** [queueDomain] is never rejected.  When the check of the domain is
    rejected it answers [false] and the collection is as before.  When the
    check resolves with a record, it follows [addDomain]: when that
    resolves, it answers [true] and exactly one record has been appended,
    the checked one with its icon replaced by the hash-named local path or
    the default icon; when [addDomain] never settles, neither does
    [queueDomain], and the collection is as before.  So it answers [true]
    exactly when the check and the addition both resolve. *)
Theorem queueDomain_outcome (W : World) (domain : string) (st : State) :
  let before := domains_of (store st) in
  let after := domains_of (store (snd (queueDomain W domain st))) in
  let check := checkDomain W domain false false st in
  (forall e, fst (queueDomain W domain st) <> Rejected e)
  /\ (forall e, fst check = Rejected e ->
      fst (queueDomain W domain st) = Resolved false /\ after = before)
  /\ (forall conf, fst check = Resolved conf ->
      (fst (addDomain W conf (snd check)) = Resolved tt ->
       fst (queueDomain W domain st) = Resolved true
       /\ exists v,
            after = (before ++ [set_icon conf v])%list
            /\ (v = server_icons_dir W +:+ "/" +:+ icon_file_name (icon conf)
                \/ v = defaultIconUrl))
      /\ (fst (addDomain W conf (snd check)) <> Resolved tt ->
          fst (queueDomain W domain st) = Pending /\ after = before))
  /\ (fst (queueDomain W domain st) = Resolved true
      <-> exists conf, fst check = Resolved conf
                       /\ fst (addDomain W conf (snd check)) = Resolved tt)
  /\ (fst (queueDomain W domain st) = Resolved false
      <-> exists e, fst check = Rejected e).
Proof.
  cbn zeta.
  destruct (checkDomain_frame W domain false false st) as (Hs & _ & _).
  unfold queueDomain. run.
  destruct (checkDomain W domain false false st) as [[conf|e|] st1]; cbn [fst snd] in *.
  - assert (Hdoc : exists d, store st1 = FileDoc d)
      by (rewrite Hs; destruct (store st); cbn; eauto).
    destruct Hdoc as [d Hdoc].
    pose proof (addDomain_added W conf st1 d Hdoc) as Hadded.
    pose proof (addDomain_settles W conf st1 d Hdoc) as Hsettles.
    destruct (addDomain W conf st1) as [[[]|e|] st2] eqn:Eadd; cbn [fst snd] in *.
    + destruct (Hadded eq_refl) as (v & Hst & Hv).
      split; [discriminate|]. split; [discriminate|]. split; [|split].
      * intros c [= <-]. rewrite Eadd. cbn [fst].
        split; [|intros Hno; now destruct Hno].
        intros _. split; [reflexivity|]. exists v. split; [|exact Hv].
        rewrite Hst, Hs, domains_of_reloaded. reflexivity.
      * split; [intros _; exists conf; rewrite Eadd; auto | reflexivity].
      * split; [discriminate | intros [e He]; discriminate].
    + destruct Hsettles as [Hx|[Hx _]]; discriminate.
    + destruct Hsettles as [Hx|[_ Hst]]; [discriminate|].
      split; [discriminate|]. split; [discriminate|]. split; [|split].
      * intros c [= <-]. rewrite Eadd. cbn [fst].
        split; [discriminate|]. intros _.
        split; [reflexivity|]. rewrite Hst, Hs, domains_of_reloaded. reflexivity.
      * split; [discriminate|]. intros (c & [= <-] & Hc). rewrite Eadd in Hc.
        discriminate.
      * split; [discriminate | intros [e He]; discriminate].
  - cbn [fst snd observed store]. rewrite Hs, domains_of_reloaded.
    split; [discriminate|]. split; [auto|]. split; [discriminate|]. split.
    + split; [discriminate | intros (c & Hc & _); discriminate].
    + split; [eauto | reflexivity].
  - cbn [fst snd]. split; [discriminate|]. split; [discriminate|].
    split; [discriminate|]. split.
    + split; [discriminate | intros (c & Hc & _); discriminate].
    + split; [discriminate | intros [e He]; discriminate].
Qed.

Lemma queueDomain_outcome_witness :
  fst (queueDomain Sample.healthy "chat.example.com" Sample.one_dev) = Resolved true
  /\ fst (queueDomain Sample.unreachable "chat.example.org" Sample.one_example)
     = Resolved false.
Proof.
  split.
  - refine (proj1 (proj1 (proj1 (proj2 (proj2
      (queueDomain_outcome Sample.healthy "chat.example.com" Sample.one_dev)))
      (mkServerConf "https://chat.example.com/icon.png" "https://chat.example.com"
         "Example" false) _) _)); vm_compute; reflexivity.
  - refine (proj1 (proj1 (proj2
      (queueDomain_outcome Sample.unreachable "chat.example.org" Sample.one_example))
      _ _)); vm_compute; reflexivity.
Defined.

(** An icon URL that [fs] refuses leaves [queueDomain] unsettled. *)
Example queueDomain_never_settles :
  fst (queueDomain Scenario.nul_world "chat.example.com" Sample.one_dev) = Pending.
Proof. vm_compute. reflexivity. Qed.

(** ** The icon file, continued *)

Lemma split_head_no_sep_left (sep : ascii) (s : string) :
  has_char sep (split_head sep s) = false.
Proof.
  induction s as [|c s IH]; cbn; [reflexivity|].
  destruct (Ascii.eqb c sep) eqn:Hc; cbn; [reflexivity | now rewrite Hc].
Qed.

Lemma split_head_keeps_absent (c sep : ascii) (s : string) :
  has_char c s = false -> has_char c (split_head sep s) = false.
Proof.
  induction s as [|x s IH]; cbn; [reflexivity|].
  intros H. apply orb_false_elim in H as [Hx Hs].
  destruct (Ascii.eqb x sep); cbn; [reflexivity | now rewrite Hx, IH].
Qed.

(** A substring holds none of the characters that are absent from the
    positions it is taken from. *)
Lemma substring_window (c : ascii) (s : string) (a len : nat) :
  (forall j, (a <= j < a + len)%nat -> String.get j s <> Some c) ->
  has_char c (String.substring a len s) = false.
Proof.
  revert a len. induction s as [|x s IH]; intros a len H.
  - destruct a, len; reflexivity.
  - destruct a as [|a].
    + destruct len as [|len]; [reflexivity|]. cbn.
      assert (Hx : Ascii.eqb x c = false).
      { apply Ascii.eqb_neq. intros ->. apply (H 0%nat); [lia | reflexivity]. }
      rewrite Hx. apply IH. intros j Hj. apply (H (S j)). lia.
    + cbn. apply IH. intros j Hj. apply (H (S j)). lia.
Qed.

Lemma charCodeAt_slash (path : string) (j : nat) :
  charCodeAt path j <> CHAR_FORWARD_SLASH -> String.get j path <> Some "/"%char.
Proof.
  unfold charCodeAt. intros H Hg. rewrite Hg in H. apply H. reflexivity.
Qed.

Lemma ext_scan_good (path : string) (n : nat) (s : ExtScan) :
  ext_inv path n s -> ext_good path (ext_scan path n s).
Proof.
  revert s. induction n as [|i IH]; intros s Hinv.
  - cbn. destruct Hinv as [(He & _)|(_ & Hle & Hdot & Hno)]; [right; now left|].
    destruct Hdot as [Hd|Hd]; [now left|]. right. right.
    split; [lia|]. intros j Hj. apply Hno. lia.
  - cbn [ext_scan].
    destruct (Z.eqb_spec (charCodeAt path i) CHAR_FORWARD_SLASH) as [Hsl|Hsl].
    + destruct (matchedSlash s) eqn:Hm; cbn [negb].
      * apply IH. destruct Hinv as [Hinv|(Hm' & _)]; [now left | congruence].
      * destruct Hinv as [(_ & _ & Hm')|(_ & Hle & Hdot & Hno)]; [congruence|].
        unfold ext_good. cbn.
        destruct Hdot as [Hd|Hd]; [now left|]. right. right.
        split; [lia|]. intros j Hj. apply Hno. lia.
    + apply IH. unfold ext_see_char.
      destruct Hinv as [(He & Hd & Hm)|(Hm & Hle & Hdot & Hno)].
      * rewrite He. cbn [Z.eqb endIdx startDot startPart matchedSlash preDotState].
        rewrite Hd. cbn [Z.eqb negb].
        destruct (charCodeAt path i =? CHAR_DOT); right; cbn;
          (split; [reflexivity|]); (split; [lia|]);
          (split; [lia|]); intros j Hj; assert (j = i) as -> by lia; exact Hsl.
      * assert (Hend : (endIdx s =? -1) = false) by (apply Z.eqb_neq; lia).
        rewrite Hend.
        assert (Hno' : forall j, Z.of_nat i <= Z.of_nat j < endIdx s ->
                         charCodeAt path j <> CHAR_FORWARD_SLASH).
        { intros j Hj. destruct (Nat.eq_dec j i) as [->|Hne]; [exact Hsl|].
          apply Hno. lia. }
        destruct (charCodeAt path i =? CHAR_DOT).
        -- destruct (Z.eqb_spec (startDot s) (-1)) as [Hd|Hd].
           ++ right. cbn. repeat split; try assumption; try lia.
           ++ destruct (negb (preDotState s =? 1)); right; cbn;
                repeat split; try assumption; try lia.
        -- destruct (Z.eqb_spec (startDot s) (-1)) as [Hd|Hd]; cbn [negb].
           ++ right. repeat split; try assumption; try lia.
           ++ right. cbn. repeat split; try assumption; try lia.
Qed.

Lemma extname_no_slash (path : string) : has_char "/"%char (extname path) = false.
Proof.
  unfold extname.
  pose proof (ext_scan_good path (String.length path) ext_init) as Hgood.
  set (s := ext_scan path (String.length path) ext_init) in *.
  destruct ((startDot s =? -1) || (endIdx s =? -1) || (preDotState s =? 0)
            || ((preDotState s =? 1) && (startDot s =? endIdx s - 1)
                && (startDot s =? startPart s + 1))) eqn:Hc; [reflexivity|].
  apply orb_false_elim in Hc as [Hc _]. apply orb_false_elim in Hc as [Hc _].
  apply orb_false_elim in Hc as [Hd He].
  apply Z.eqb_neq in Hd, He.
  destruct Hgood as [H|[H|(Hr & Hno)]]; [now left | congruence | congruence |].
  unfold slice. apply substring_window. intros j Hj.
  apply charCodeAt_slash, Hno. lia.
Qed.

Lemma has_char_cons (c x : ascii) (s : string) :
  has_char c (String x s) = Ascii.eqb x c || has_char c s.
Proof. reflexivity. Qed.

Lemma uint_no_char (c : ascii) (d : Decimal.uint) :
  is_digit c = false -> has_char c (NilEmpty.string_of_uint d) = false.
Proof.
  intros Hc.
  assert (Hne : forall x, is_digit x = true -> Ascii.eqb x c = false).
  { intros x Hx. apply Ascii.eqb_neq. intros ->. congruence. }
  induction d; cbn [NilEmpty.string_of_uint]; [reflexivity|..];
    rewrite has_char_cons, Hne by reflexivity; exact IHd.
Qed.

Lemma of_uint_no_char (c : ascii) (n : Z) :
  is_digit c = false -> has_char c (of_uint n) = false.
Proof.
  intros Hc. unfold of_uint, NilZero.string_of_uint.
  destruct (N.to_uint (Z.to_N n)) eqn:E; try (rewrite <- E; now apply uint_no_char).
  rewrite has_char_cons. assert (H : Ascii.eqb "0" c = false); [|now rewrite H].
  apply Ascii.eqb_neq. intros <-. discriminate Hc.
Qed.

(** The path [generateFilePath] returns is a file directly inside the
    [server-icons] directory: what follows the directory holds no slash, and
    no question mark either, whatever the URL. *)
Theorem generateFilePath_inside_dir (W : World) (url : string) (st : State) :
  exists name,
    fst (generateFilePath W url st) = Resolved (server_icons_dir W +:+ "/" +:+ name)
    /\ has_char "/"%char name = false
    /\ has_char "?"%char name = false.
Proof.
  exists (icon_file_name url). split.
  - unfold generateFilePath. run.
    destruct (bool_decide (server_icons_dir W ∈ dirs st)); reflexivity.
  - unfold icon_file_name, icon_extension. rewrite !has_char_append.
    rewrite !of_uint_no_char by reflexivity. cbn [orb].
    split; [|apply split_head_no_sep_left].
    apply split_head_keeps_absent, extname_no_slash.
Qed.

(** The moment [saveServerIcon] sends its request: the directory may have
    had to be made, and the stream has been created. *)
Lemma request_moment (W : World) (path : string) (st : State) :
  length (trace (with_stream W path (with_icons_dir W st)))
  = (length (trace st)
     + (if bool_decide (server_icons_dir W ∈ dirs st) then 0 else 1) + 1)%nat.
Proof.
  rewrite with_stream_trace, length_app. unfold with_icons_dir.
  destruct (bool_decide _); cbn [trace length]; rewrite ?length_app; cbn [length]; lia.
Qed.

Lemma with_icons_dir_dirs (W : World) (st : State) :
  dirs (with_icons_dir W st) = {[server_icons_dir W]} ∪ dirs st.
Proof.
  unfold with_icons_dir.
  destruct (decide (server_icons_dir W ∈ dirs st)) as [Hdir|Hdir];
    [rewrite bool_decide_eq_true_2 by exact Hdir
    |rewrite bool_decide_eq_false_2 by exact Hdir]; [|reflexivity].
  symmetry. apply subseteq_union_1_L, singleton_subseteq_l, Hdir.
Qed.

Lemma with_icons_dir_files (W : World) (st : State) :
  files (with_icons_dir W st) = files st.
Proof. unfold with_icons_dir. destruct (bool_decide _); reflexivity. Qed.

Lemma with_stream_other (W : World) (path p : string) (st : State) :
  p <> path -> files (with_stream W path st) !! p = files st !! p.
Proof.
  intros Hp. unfold with_stream. destruct (file_opens W path); [|reflexivity].
  cbn [files]. apply lookup_insert_ne. congruence.
Qed.

Lemma piped_other (live : bool) (path content p : string) (st : State) :
  p <> path -> files (piped live path content st) !! p = files st !! p.
Proof.
  intros Hp. destruct live; [|reflexivity].
  cbn [piped files]. apply lookup_insert_ne. congruence.
Qed.

(** When the download of an icon other than the default one finishes, the
    hash-named file name holds no NUL byte and the operating system opens
    the file, [saveServerIcon] resolves with the hash-named path and the
    file at that path holds what was downloaded; one request was sent, for
    the icon URL, with the domain and the [ignoreCerts] flag of the call. *)
Theorem saveServerIcon_downloads (W : World) (server : ServerConf) (ic : bool)
    (st : State) (content : string) :
  let dir := server_icons_dir W in
  let path := dir +:+ "/" +:+ icon_file_name (icon server) in
  let made := if bool_decide (dir ∈ dirs st) then 0%nat else 1%nat in
  let st' := snd (saveServerIcon W server ic st) in
  icon server <> defaultIconUrl ->
  has_char NUL (icon_file_name (icon server)) = false ->
  file_opens W path = true ->
  icon_reply W (length (trace st) + made + 1)%nat (mkRequest (icon server) (url server) ic)
  = IconFinish content ->
  fst (saveServerIcon W server ic st) = Resolved path
  /\ files st' !! path = Some content
  /\ exists pre,
       trace st' = (trace st ++ pre ++
                    [EvOpenWrite path;
                     EvIconRequest (mkRequest (icon server) (url server) ic)])%list
       /\ count is_icon_request pre = 0%nat.
Proof.
  cbn zeta. intros Hne Hnul Hopen Hreply. apply String.eqb_neq in Hne.
  rewrite saveServerIcon_run. cbn zeta. rewrite Hnul, Hne, request_moment.
  unfold icon_path. rewrite Hreply, Hopen.
  cbn [fst snd piped observed files trace].
  split; [reflexivity|]. split; [apply lookup_insert_eq|].
  rewrite with_stream_trace.
  destruct (with_icons_dir_trace W st) as (pre & -> & Hshape).
  exists pre. rewrite <- !app_assoc. split; [reflexivity|].
  destruct Hshape as [-> | ->]; reflexivity.
Qed.

Lemma saveServerIcon_downloads_witness :
  fst (saveServerIcon Sample.healthy Sample.example_record false Sample.one_dev)
  = Resolved ("/data/server-icons/" +:+ icon_file_name "/data/server-icons/2.png").
Proof.
  apply (saveServerIcon_downloads Sample.healthy Sample.example_record false
           Sample.one_dev "PNG"); [discriminate | reflexivity..].
Defined.



(** [saveServerIcon] leaves the domain store alone and touches one file
    only: every other file is as it was; the one directory it may add is
    [server-icons]; it sends no request for the default icon or when the
    hash-named file name holds a NUL byte, and one request otherwise; it
    never asks for the settings and never prompts. *)
Theorem saveServerIcon_frame (W : World) (server : ServerConf) (ic : bool) (st : State) :
  let dir := server_icons_dir W in
  let path := dir +:+ "/" +:+ icon_file_name (icon server) in
  let st' := snd (saveServerIcon W server ic st) in
  store st' = store st
  /\ (forall p, p <> path -> files st' !! p = files st !! p)
  /\ dirs st' = {[dir]} ∪ dirs st
  /\ exists tr,
       trace st' = (trace st ++ tr)%list
       /\ count is_icon_request tr
          = (if String.eqb (icon server) defaultIconUrl
                || has_char NUL (icon_file_name (icon server))
             then 0 else 1)%nat
       /\ count is_settings_request tr = 0%nat
       /\ count is_prompt tr = 0%nat.
Proof.
  cbn zeta. split; [apply saveServerIcon_store|].
  rewrite saveServerIcon_run. cbn zeta. fold (icon_path W (icon server)).
  set (path := icon_path W (icon server)).
  pose proof (with_icons_dir_dirs W st) as Hdirs.
  pose proof (with_icons_dir_files W st) as Hfiles.
  destruct (with_icons_dir_trace W st) as (pre & Hpre & Hshape).
  assert (Hcount : count is_icon_request pre = 0%nat
                   /\ count is_settings_request pre = 0%nat
                   /\ count is_prompt pre = 0%nat)
    by (destruct Hshape as [-> | ->]; repeat split).
  destruct Hcount as (Hc1 & Hc2 & Hc3).
  destruct (has_char NUL (icon_file_name (icon server))).
  { rewrite orb_true_r. cbn [snd]. rewrite Hfiles, Hdirs, Hpre.
    split; [reflexivity|]. split; [reflexivity|]. exists pre. auto. }
  rewrite orb_false_r.
  destruct (String.eqb (icon server) defaultIconUrl).
  { cbn [snd observed files dirs trace].
    rewrite with_stream_dirs, with_stream_trace, Hdirs, Hpre.
    split; [intros p Hp; rewrite with_stream_other by exact Hp; now rewrite Hfiles|].
    split; [reflexivity|].
    eexists. rewrite <- !app_assoc. split; [reflexivity|].
    rewrite !count_app, Hc1, Hc2, Hc3. repeat split. }
  destruct (icon_reply W _ _); rewrite ?icon_failed_run;
    cbn [snd observed files dirs trace];
    rewrite ?piped_dirs, ?piped_trace; cbn [observed files dirs trace];
    rewrite with_stream_dirs, with_stream_trace, Hdirs, Hpre;
    (split; [intros p Hp; rewrite ?piped_other by exact Hp; cbn [observed files];
             rewrite with_stream_other by exact Hp; now rewrite Hfiles|]);
    (split; [reflexivity|]);
    eexists; rewrite <- !app_assoc; (split; [reflexivity|]);
    rewrite !count_app, Hc1, Hc2, Hc3; repeat split.
Qed.

Lemma saveServerIcon_frame_witness :
  files (snd (saveServerIcon Sample.healthy Sample.example_record false Sample.one_dev))
  !! "/data/server-icons/other.png"
  = files Sample.one_dev !! "/data/server-icons/other.png".
Proof.
  apply (saveServerIcon_frame Sample.healthy Sample.example_record false Sample.one_dev).
  vm_compute. discriminate.
Defined.

(** For every sequence of UTF-16 code units, the accumulator of the hash
    loop stays a signed 32-bit integer at every turn (so the product by 33 is
    exact in double precision), and the loop followed by [>>> 0] gives the
    unsigned rolling hash, a number below 2^32. *)
Theorem url_hash_codes_unsigned (codes : list Z) :
  Forall (fun c => 0 <= c < 2 ^ 16) codes ->
  (forall len, - 2 ^ 31 <= hash_while codes len 5381 < 2 ^ 31)
  /\ url_hash_codes codes = spec_hash codes
  /\ 0 <= url_hash_codes codes < 2 ^ 32.
Proof.
  intros Hcodes. repeat split.
  - apply (hash_while_int32 codes len 5381). lia.
  - apply (hash_while_int32 codes len 5381). lia.
  - now apply url_hash_codes_spec.
  - apply Z.mod_pos_bound. reflexivity.
  - apply Z.mod_pos_bound. reflexivity.
Qed.

Lemma url_hash_codes_unsigned_witness :
  url_hash_codes [104; 8364; 65535] = spec_hash [104; 8364; 65535].
Proof.
  apply (url_hash_codes_unsigned [104; 8364; 65535]).
  repeat constructor; lia.
Defined.

(** ** The alias *)

Lemma escape_plain (s : string) :
  has_char "<"%char s = false -> has_char ">"%char s = false ->
  has_char "&"%char s = false ->
  has_char (ascii_of_nat 34) s = false -> has_char (ascii_of_nat 39) s = false ->
  escape s = s.
Proof.
  induction s as [|x s IH]; [reflexivity|]. cbn [has_char].
  intros H1 H2 H3 H4 H5.
  apply orb_false_elim in H1 as [H1 H1'], H2 as [H2 H2'], H3 as [H3 H3'],
    H4 as [H4 H4'], H5 as [H5 H5'].
  cbn [escape]. unfold escape_char. rewrite H1, H2, H3, H4, H5.
  rewrite (IH H1' H2' H3' H4' H5'). reflexivity.
Qed.

(** The alias of every record [getServerSettings] resolves with is free of
    markup: it holds no [<], no [>], no double quote and no single quote,
    whatever name the server sent; a name without these characters and
    without [&] is kept as it is. *)
Theorem getServerSettings_alias_safe (W : World) (domain : string) (ic : bool)
    (st : State) (response : Response) (data : Settings) (conf : ServerConf) :
  settings_reply W (length (trace st)) (serverSettingsOptions domain ic)
  = ReplyResponse response ->
  body response = BodyJson data ->
  fst (getServerSettings W domain ic st) = Resolved conf ->
  alias conf = escape (realm_name data)
  /\ has_char "<"%char (alias conf) = false
  /\ has_char ">"%char (alias conf) = false
  /\ has_char (ascii_of_nat 34) (alias conf) = false
  /\ has_char (ascii_of_nat 39) (alias conf) = false
  /\ (has_char "<"%char (realm_name data) = false ->
      has_char ">"%char (realm_name data) = false ->
      has_char "&"%char (realm_name data) = false ->
      has_char (ascii_of_nat 34) (realm_name data) = false ->
      has_char (ascii_of_nat 39) (realm_name data) = false ->
      alias conf = realm_name data).
Proof.
  intros Hreply Hbody Hres.
  assert (Halias : alias conf = escape (realm_name data)).
  { revert Hres. unfold getServerSettings. run. rewrite Hreply. cbn.
    destruct (statusCode response =? 200); [|discriminate].
    rewrite Hbody. destruct (realm_icon data) as [ri|]; [|discriminate].
    destruct (String.eqb ri EmptyString); cbn; [discriminate|].
    intros H. injection H as <-. reflexivity. }
  rewrite Halias. repeat split; try (apply escape_safe; auto).
  apply escape_plain.
Qed.

Lemma getServerSettings_alias_safe_witness :
  has_char "<"%char
    (escape (realm_name (mkSettings (Some "/i.png") "https://x.org" "<b>X</b>")))
  = false.
Proof.
  pose (W := mkWorld "/data" eq_refl Sample.msgs
               (fun _ _ => ReplyResponse (mkResponse 200
                  (BodyJson (mkSettings (Some "/i.png") "https://x.org" "<b>X</b>"))))
               (fun _ _ => IconFinish "PNG") (fun _ => 1) (fun _ => true)).
  destruct (getServerSettings_alias_safe W "https://x.org" false Sample.one_dev
              (mkResponse 200 (BodyJson (mkSettings (Some "/i.png") "https://x.org" "<b>X</b>")))
              (mkSettings (Some "/i.png") "https://x.org" "<b>X</b>")
              (mkServerConf "https://x.org/i.png" "https://x.org"
                 "&lt;b&gt;X&lt;/b&gt;" false)
              eq_refl eq_refl eq_refl) as (Ha & Hlt & _).
  rewrite <- Ha. exact Hlt.
Defined.

(** ** The user agent *)

(** [getUserAgent] computes the user agent at most once: whatever the state,
    the value it returns is a non-empty string, and every later call returns
    that same value, also when the application version or the configured
    user agent have changed in between; a value set by [setUserAgent] is
    returned as it is. *)
Theorem getUserAgent_cached (appVersion : string) (configItem : option string)
    (st : SystemUtil.State) :
  let result := fst (SystemUtil.getUserAgent appVersion configItem st) in
  let st' := snd (SystemUtil.getUserAgent appVersion configItem st) in
  (exists ua, result = Some ua /\ ua <> EmptyString)
  /\ (forall appVersion' configItem',
        SystemUtil.getUserAgent appVersion' configItem' st' = (result, st'))
  /\ (forall view,
        fst (SystemUtil.getUserAgent appVersion configItem
               (SystemUtil.setUserAgent appVersion view st))
        = Some ("ZulipElectron/" +:+ appVersion +:+ " " +:+ SystemUtil.operand view))
  /\ (st = SystemUtil.initial ->
      result = Some ("ZulipElectron/" +:+ appVersion +:+ " " +:+
                     SystemUtil.operand configItem)).
Proof.
  cbn zeta. unfold SystemUtil.getUserAgent. cbv zeta. cbn [fst snd].
  assert (Hset : forall v c s,
            SystemUtil.falsy (SystemUtil.setUserAgent v c s) = false) by reflexivity.
  repeat split.
  - destruct st as [ua|]; cbn [SystemUtil.falsy].
    + destruct (String.eqb_spec ua EmptyString) as [->|Hne].
      * eexists. split; [reflexivity | discriminate].
      * exists ua. auto.
    + eexists. split; [reflexivity | discriminate].
  - intros v' c'.
    destruct (SystemUtil.falsy st) eqn:Hf; cbv iota.
    + rewrite (Hset appVersion configItem st). reflexivity.
    + rewrite Hf. reflexivity.
  - intros ->. reflexivity.
Qed.

Lemma getUserAgent_cached_witness :
  fst (SystemUtil.getUserAgent "4.0.0" None SystemUtil.initial)
  = Some "ZulipElectron/4.0.0 null".
Proof.
  apply (getUserAgent_cached "4.0.0" None SystemUtil.initial). reflexivity.
Defined.
